(** * Checksum engine of the Spanish masking generators

    A shallow embedding of [masking/locale/es/pin.py] (DNI / NIE codes) and
    [masking/locale/es/bankaccount.py] (BBAN / IBAN codes), followed by the
    properties established about them.

    Conventions.
    - The sources are Python 2 (they use the [print] statement), so a [str]
      is a sequence of bytes; it is modelled as [list ascii].
    - A call that may raise is a value of [result]: [Ok v] when it returns
      [v], [Raise e] when the exception [e] propagates.
    - The process-wide random source is made explicit: every function that
      consults [random] receives the values the calls return as arguments,
      and their ranges (the contracts of [random.randint], [random.randrange]
      and [random.choice]) are hypotheses of the theorems. *)

From Stdlib Require Import ZArith List Ascii String Bool Lia.
Import ListNotations.

Local Open Scope Z_scope.

(** ** Values and exceptions *)

Definition str := list ascii.

(** A Python string literal. *)
Definition py (s : string) : str := list_ascii_of_string s.

Inductive exn : Set :=
| IBANInvalidLength
| IBANInvalidCountry
| IBANInvalidBankCode
| IBANInvalidCheckDigit
| BBANInvalidLength
| BBANInvalidBankCode
| BBANInvalidBankBranchCheckDigit
| BBANInvalidAccountCheckDigit
| InvalidPinError
| ValueError
| IndexError
| UnboundLocalError.

Inductive result (A : Type) : Type :=
| Ok (a : A)
| Raise (e : exn).

Arguments Ok {A} a.
Arguments Raise {A} e.

Definition bind {A B : Type} (m : result A) (k : A -> result B) : result B :=
  match m with
  | Ok a => k a
  | Raise e => Raise e
  end.

Notation "x <- m ;; k" := (bind m (fun x => k))
  (at level 61, m at next level, right associativity).

(** ** The Python built-ins the sources rely on *)

Module Py.

Definition code (c : ascii) : Z := Z.of_nat (nat_of_ascii c).

Definition chr_eqb (c d : ascii) : bool := Ascii.eqb c d.

Fixpoint str_eqb (s t : str) : bool :=
  match s, t with
  | [], [] => true
  | c :: s', d :: t' => chr_eqb c d && str_eqb s' t'
  | _, _ => false
  end.

(** [c.isdigit()], [c.isalpha()], [c.isspace()] on one byte (C locale). *)
Definition isdigit (c : ascii) : bool := (48 <=? code c) && (code c <=? 57).

Definition isupper (c : ascii) : bool := (65 <=? code c) && (code c <=? 90).

Definition islower (c : ascii) : bool := (97 <=? code c) && (code c <=? 122).

Definition isalpha (c : ascii) : bool := isupper c || islower c.

Definition isspace (c : ascii) : bool :=
  (code c =? 32) || ((9 <=? code c) && (code c <=? 13)).

(** [s.upper()]. *)
Definition upper_chr (c : ascii) : ascii :=
  if islower c then ascii_of_nat (nat_of_ascii c - 32) else c.

Definition upper (s : str) : str := map upper_chr s.

(** [s[i]] for a non-negative index. *)
Definition getitem {A : Type} (s : list A) (i : nat) : result A :=
  match nth_error s i with
  | Some c => Ok c
  | None => Raise IndexError
  end.

(** [s[i:j]] and [s[i:]] for non-negative bounds; slices never raise. *)
Definition slice {A : Type} (s : list A) (i j : nat) : list A :=
  firstn (j - i) (skipn i s).

Definition slice_from {A : Type} (s : list A) (i : nat) : list A := skipn i s.

(** [l.index(x)]: position of the first occurrence, [ValueError] if none. *)
Fixpoint index (l : list str) (x : str) : result nat :=
  match l with
  | [] => Raise ValueError
  | y :: l' => if str_eqb y x then Ok O else (i <- index l' x ;; Ok (S i))
  end.

(** [x in l] for a list of strings. *)
Definition contains (l : list str) (x : str) : bool := existsb (str_eqb x) l.

(** [s.replace(old, new)] where [old] is a single character. *)
Fixpoint replace_chr (old : ascii) (new : str) (s : str) : str :=
  match s with
  | [] => []
  | c :: s' =>
      if chr_eqb c old then new ++ replace_chr old new s'
      else c :: replace_chr old new s'
  end.

(** [int(s)] in base 10, as CPython 2 parses a [str]: white space is
    skipped before the sign, between the sign and the digits and after the
    digits; at least one digit is required; anything else is a
    [ValueError].  The result is unbounded ([int] promotes to [long]). *)
Fixpoint lstrip (s : str) : str :=
  match s with
  | c :: s' => if isspace c then lstrip s' else s
  | [] => []
  end.

Fixpoint span_digits (s : str) : str * str :=
  match s with
  | c :: s' =>
      if isdigit c then let (ds, rest) := span_digits s' in (c :: ds, rest)
      else ([], s)
  | [] => ([], [])
  end.

Definition digit_val (c : ascii) : Z := code c - 48.

Definition digits_val (ds : str) : Z :=
  fold_left (fun acc c => 10 * acc + digit_val c) ds 0.

Definition split_sign (s : str) : Z * str :=
  match s with
  | c :: t =>
      if chr_eqb c "+" then (1, t)
      else if chr_eqb c "-" then (-1, t)
      else (1, s)
  | [] => (1, s)
  end.

Definition int (s : str) : result Z :=
  let (sign, unsigned) := split_sign (lstrip s) in
  let (ds, rest) := span_digits (lstrip unsigned) in
  match ds with
  | [] => Raise ValueError
  | _ :: _ => if forallb isspace rest then Ok (sign * digits_val ds)
              else Raise ValueError
  end.

(** [map(int, list(s))]: Python 2's [map] is eager, so every character is
    converted, and the first one that is not a digit raises. *)
Fixpoint map_int (s : str) : result (list Z) :=
  match s with
  | [] => Ok []
  | c :: s' => x <- int [c] ;; xs <- map_int s' ;; Ok (x :: xs)
  end.

(** [str(n)] of an integer. *)
Definition digit_chr (d : Z) : ascii := ascii_of_nat (Z.to_nat (48 + d)).

Fixpoint str_digits (fuel : nat) (n : Z) : str :=
  match fuel with
  | O => []
  | S f =>
      if n <? 10 then [digit_chr n]
      else str_digits f (n / 10) ++ [digit_chr (n mod 10)]
  end.

(** A number has no more decimal digits than binary ones. *)
Definition digits_fuel (n : Z) : nat := S (Z.to_nat (Z.log2 n)).

Definition str_ (n : Z) : str :=
  if n <? 0 then "-"%char :: str_digits (digits_fuel (- n)) (- n)
  else str_digits (digits_fuel n) n.

(** [s.zfill(width)]: zeros go after a leading sign. *)
Definition zfill (width : nat) (s : str) : str :=
  let pad := repeat "0"%char (width - List.length s) in
  match s with
  | c :: t =>
      if chr_eqb c "+" || chr_eqb c "-" then c :: pad ++ t else pad ++ s
  | [] => pad
  end.

(** Reading a local variable: [UnboundLocalError] while nothing has been
    assigned to it. *)
Definition load {A : Type} (v : option A) : result A :=
  match v with
  | Some a => Ok a
  | None => Raise UnboundLocalError
  end.

(** [sum(l)]. *)
Definition sum (l : list Z) : Z := fold_left Z.add l 0.

(** [[x*y for x, y in zip(xs, ys)]]: [zip] stops at the shorter list. *)
Definition zip_mul (xs ys : list Z) : list Z :=
  map (fun p => fst p * snd p) (combine xs ys).

(** [sep.join(l)]. *)
Fixpoint join (sep : str) (l : list str) : str :=
  match l with
  | [] => []
  | [x] => x
  | x :: l' => x ++ sep ++ join sep l'
  end.

(** [string.ascii_uppercase] as a list of one-character strings. *)
Definition ascii_uppercase : list str :=
  map (fun c => [c]) (py "ABCDEFGHIJKLMNOPQRSTUVWXYZ").

End Py.

(** ** masking/locale/es/pin.py *)

Module pin.

Definition letters : list str :=
  map py ["T"; "R"; "W"; "A"; "G"; "M"; "Y"; "F"; "P"; "D"; "X"; "B";
          "N"; "J"; "Z"; "S"; "Q"; "V"; "H"; "L"; "C"; "K"; "E"]%string.

Definition foreign : list str := map py ["X"; "Y"; "Z"]%string.

Module DNI.

(** [DNI.validate(pin)]. *)
Definition validate (pin : str) : result bool :=
  if negb (Nat.eqb (List.length pin) 9) then Raise InvalidPinError
  else
    check_digit <- Py.getitem pin 8 ;;
    let pin := Py.slice pin 0 8 in
    pin0 <- Py.getitem pin 0 ;;
    pin <- (if Py.contains pin.foreign [pin0]
            then (i <- Py.index pin.foreign [pin0] ;;
                  Ok (Py.replace_chr pin0 (Py.str_ (Z.of_nat i)) pin))
            else Ok pin) ;;
    n <- Py.int pin ;;
    l <- Py.getitem letters (Z.to_nat (n mod 23)) ;;
    Ok (Py.str_eqb [check_digit] l).

(** [DNI.national(self)]; [r] is what [random.randint(0, 9999999)]
    returns. *)
Definition national (r : Z) : result str :=
  let dni := Py.zfill 8 (Py.str_ r) in
  n <- Py.int dni ;;
  let check_digit := n mod 23 in
  l <- Py.getitem letters (Z.to_nat check_digit) ;;
  Ok (dni ++ l).

(** [DNI.foreign(self)]; [j] is the position [random.choice] picks in
    the list [foreign], [r] is what [random.randint(0, 9999999)]
    returns. *)
Definition foreign (j : nat) (r : Z) : result str :=
  picked <- Py.getitem pin.foreign j ;;
  letter <- Py.index pin.foreign picked ;;
  let dni := Py.zfill 7 (Py.str_ r) in
  numeric_nie <- Py.int (Py.str_ (Z.of_nat letter) ++ dni) ;;
  let check_digit := numeric_nie mod 23 in
  prefix <- Py.getitem pin.foreign letter ;;
  l <- Py.getitem letters (Z.to_nat check_digit) ;;
  Ok (prefix ++ dni ++ l).

(** The property [DNI.value]; [k] is the position [random.choice] picks
    in [pin_type].  [None] is Python's [None], returned when the
    self-check is false. *)
Definition value (k j : nat) (r : Z) : result (option str) :=
  let pin_type := [national r; foreign j r] in
  pin <- (m <- Py.getitem pin_type k ;; m) ;;
  ok <- validate pin ;;
  if ok then Ok (Some pin) else Ok None.

End DNI.

End pin.

(** ** masking/locale/es/bankaccount.py *)

Module bankaccount.

Record bank_info : Set := { name : str; bic : str }.

Definition entry (k n b : string) : str * bank_info :=
  (py k, {| name := py n; bic := py b |}).

(** The dictionary [BANKS], one line per key. *)
Definition BANKS : list (str * bank_info) := [
  entry "0136" "ARESBANK" "AREBESMMXXX";
  entry "0238" "BANCO-PASTOR" "POPUESMMXXX";
  entry "0130" "BANCO-CAIXA-GRAL" "CGDIESMMXXX";
  entry "0038" "SANTANDER-BANCO-EMISIONES" "BSCHESMMXXX";
  entry "0132" "BANCO-PROMOCION-NEGOCIOS" "PRNEESM1XXX";
  entry "0133" "NUEVO-MICROBANK" "MIKBESB1XXX";
  entry "0233" "POPULAR-BANCA-PRIVADA" "POPIESMMXXX";
  entry "0232" "BANCO-INVERSIS" "INVLESMMXXX";
  entry "0231" "DEXIA-SABADELL" "DSBLESMMXXX";
  entry "0036" "SANTANDER-IVESTMENT" "SABNESMMXXX";
  entry "0138" "BANKOA" "BKOAES22XXX";
  entry "0239" "EVO-BANK" "EVOBESMMXXX";
  entry "0235" "BANCO-PICHINCHA" "PIESESM1XXX";
  entry "0234" "BANCO-CAMINOS" "CCOCESMMXXX";
  entry "2095" "KUTXABANK" "BASKES2BXXX";
  entry "2096" "CAJA-ESPANA-NVERSIONES" "CSPAES2LXXX";
  entry "3095" "CAJA-RURAL-SANROQUE" "BCOEESMM095";
  entry "2013" "CATALUNYA-BANK" "CESCESBBXXX";
  entry "3045" "CAIXA-RURAL-ALTEA" "BCOEESMM045";
  entry "0131" "BANCO-ESPIRITO-SANTO" "BESMESMMXXX";
  entry "1546" "CNH-CAPITAL" "CNCUFRP1XXX";
  entry "1544" "ANDBANK" "BACAESMMXXX";
  entry "1545" "CREDIT-ACRICOLE-LUXEMBURGO" "AGRIESMMXXX";
  entry "1535" "AKF-BANK" "AKFBDE33XXX";
  entry "3121" "CAJA-RURAL-CHESTE" "BCOEESMM121";
  entry "3127" "CAJA-RURAL-CASASIBANEZ" "BCOEESMM127";
  entry "1549" "MAINFIRST" "MAIFDFFXXX";
  entry "0144" "BNP-PARIBAS-SECURITES" "PARBESMXXXX";
  entry "2401" "CAJA-PENSIONES-BARCELONA" "CAIXESBBXXX";
  entry "1465" "ING-DIRECT" "INGDESMMXXX";
  entry "1467" "HYPOTHEKENBANK-FRNAKFURT" "EHYPESMXXXX";
  entry "3190" "CAJA-RURAL-ALBACETE" "BCOEESMM190";
  entry "1460" "CREDIT-SUISSE-AG" "CRESESMMXXX";
  entry "1463" "BANQUE-PSA-FINANCE" "PSABESM1XXX";
  entry "0049" "BANCO-SANTANDER" "BSCHESMMXXX";
  entry "0125" "BANCOFAR" "BAOFESM1XXX";
  entry "0122" "CITIBANK" "CITIES2XXXX";
  entry "0121" "BANCO-OCCIDENTAL" "OCBAESM1XXX";
  entry "0031" "BANCO-ETCHEVARRIA" "ETCHES2GXXX";
  entry "3183" "CAJA-ARQUITECTOS-COOP" "CASDESBBXXX";
  entry "0046" "BANCO-GALLEGO" "GALEES2GXXX";
  entry "0128" "BANKINTER" "BKBKESMMXXX";
  entry "1490" "SELF-TRADE-BANK" "SELFESMMXXX";
  entry "1491" "TRIODOS-BANK" "TRIOESMMXXX";
  entry "1492" "BNP-PARIBAS-LEASE" "ESSIESMMXXX";
  entry "1493" "CAIXA-BANCO-INVESTIMENTO" "CXBIPTPLXXX";
  entry "1494" "INTESA-SANPAOLO" "BCITESMMXXX";
  entry "3130" "CAJA-RURAL-ALMASSORA" "BCOEESMM130";
  entry "1496" "GENEFIM" "GENFFRP1XXX";
  entry "1499" "CLAAS-FINANCIAL" "CLAAFRP1XXX";
  entry "3138" "CAJA-RURAL-BETXI" "BCOEESMM138";
  entry "3035" "CAJA-LABORAL-POPULAR" "CLPEES2MXXX";
  entry "2415" "CAJA-EXTREMADURA" "CECAESMM099";
  entry "2105" "BANCO-CASTILLA-MANCHA" "CECAESMM105";
  entry "2416" "CAJA-CANTABRIA" "CECAESMM066";
  entry "2038" "BANKIA" "CAHMESMMXXX";
  entry "0113" "BANCO-INDUSTRIAL-BILBAO" "INBBESM1XXX";
  entry "0059" "BANCO-MADRID" "MADRESMMXXX";
  entry "0058" "BNP-PARIBAS" "BNPAESMMXXX";
  entry "0115" "BANCO-CASTILLA-LAMANCHA" "CECAESMM115";
  entry "0057" "BANCO-DEPOSITARIO-BBVA" "BVADESMMXXX";
  entry "3140" "CAJA-RURAL-GUISSONA" "BCOEESMM140";
  entry "1482" "JOHN-DEERE-BANK" "CHASESM3XXX";
  entry "1481" "BANCO-MAIS" "ESMMES64XXX";
  entry "1480" "VOLKSWAGEN-BANK" "VOWAES21XXX";
  entry "1487" "TOYOTA-KREDITBANK" "TKGTFR21XXX";
  entry "1485" "BANK-OF-AMERICA" "BOFAES2XXXX";
  entry "1488" "PICTET-CIE" "PICTESMMXXX";
  entry "3134" "CAJA-RURAL-SRAESPERANZA" "BCOEESMM134";
  entry "3165" "CAJA-RURAL-SANISIDROVILAFAMES" "BCOEESMM165";
  entry "3029" "CAJA-CREDITO-PETREL" "BCOEESMM029";
  entry "3162" "CAJA-RURAL-BENICARLO" "BCOEESMM162";
  entry "3025" "CAIXA-CREDIT-ENGINYERS" "CDENESBBXXX";
  entry "3023" "CAJA-RURAL-GRANADA" "BCOEESMM023";
  entry "3020" "CAJA-RURAL-UTRERA" "BCOEESMM020";
  entry "1524" "UBI-BANCA" "UBIBESMMXXX";
  entry "1525" "BANQUE-CHAABI-MAROC" "BCDMESMMXXX";
  entry "2108" "BANCO-CAJAESPANA-SALAMANCASORIA" "CSPAES2L108";
  entry "3160" "CAIXA-RURAL-SANTJOSEPCOOP" "BCOEESMM160";
  entry "0200" "PRIVAT-BANK-DEGROOF" "PRVBESB1XXX";
  entry "1523" "MERCEDES-BENZ-BANK" "DEUTESBBXXX";
  entry "0444" "SISTEMA-4B" EmptyString;
  entry "1528" "JCB-FINANCE" "ES1528";
  entry "1530" "SOFINLOC" "FIOFESM1XXX";
  entry "0108" "SOCIETE-GENERALE" "SOGEESMMXXX";
  entry "3152" "CAJA-RURAL-VILLAR" "BCOEESMM152";
  entry "3150" "CAJA-RURAL-ALBALCOOP" "BCOEESMM150";
  entry "3157" "CAJA-RURAL-JUNQUERA" "BCOEESMM157";
  entry "9000" "BANCO-DE-ESPANA" "ESPBESMMXXX";
  entry "3159" "CAIXA-POPULAR-SDADCOOP" "BCOEESMM159";
  entry "0237" "CAJASUR-BANCO" "CSURES2CXXX";
  entry "3018" "CAJA-RURAL-SANAGUSTIN" "BCOEESMM018";
  entry "2045" "CAIXA-DESTALVIS-ONTINENT" "CECAESMM045";
  entry "2056" "CAIXA-DESTALVIS-POLLENSA" "CECAESMM056";
  entry "3016" "CAJA-RURAL-SALAMANCA" "BCOEESMM016";
  entry "3017" "CAJA-RURAL-SORIA" "BCOEESMM017";
  entry "2048" "LEBERBANK" "CECAESMM048";
  entry "1510" "SAXO-BANK" "SAXODKKKXXX";
  entry "0211" "EBN-BANCO-NEGOCIOS" "PROAESMMXXX";
  entry "1536" "OREY-FINANCIAL" "OVSCPTP1XXX";
  entry "0198" "BANCO-COOPERATIVO-ESPANOL" "BCOEESMMXXX";
  entry "3096" "CAIXA-RURAL-LALCUDIA" "BCOEESMM096";
  entry "1532" "BNP-PARIBAS-FACTOR" "BNPAESMSXXX";
  entry "1531" "CREDIT-SUISSE" "CSROESM1XXX";
  entry "0216" "TARGOBANK" "POHIESMMXXX";
  entry "0219" "BANQUE-MAROCAINE-COMMERCE" "BMCEESMMXXX";
  entry "0218" "FCE-BANK-PLC" "FCEFESM1XXX";
  entry "0190" "BANCO-BPI" "BBPIESMMXXX";
  entry "0236" "SABADELL-SOLBANK" "LOYIESMMXXX";
  entry "1000" "ICO" "ICROESMMXXX";
  entry "3115" "CAJA-RURAL-MADRESOL" "BCOEESMM115";
  entry "3123" "CAIXA-RURAL-TURIS" "BCOEESMM123";
  entry "1522" "EFG-BANK" "EFGBESMMXXX";
  entry "3005" "CAJA-RURAL-CENTRAL" "BCOEESMM005";
  entry "3007" "CAJA-RURAL-GIJON" "BCOEESMM007";
  entry "3001" "CAJA-RURAL-ALMENDRALEJO" "BCOEESMM001";
  entry "3166" "CAIXA-RURAL-LESCOVESVINROMAS" "BCOEESMM166";
  entry "2000" "CECABANK" "CECAESMMXXX";
  entry "3009" "CAJA-RURAL-EXTREMADURA" "BCOEESMM009";
  entry "3008" "CAJA-RURAL-NAVARRA" "BCOEESMM008";
  entry "3113" "CAJA-RURAL-SANJOSEALCORA" "BCOEESMM113";
  entry "2414" "CAJA-ASTURIAS" "CECAESMMO48";
  entry "0184" "BANCO-EUROPEO-FINANZAS" "BEDFESM1XXX";
  entry "3144" "CAJA-RURAL-VILLAMALEA" "BCOEESMM144";
  entry "0186" "BANDO-MEDIOLANUM" "BFIVESBBXXX";
  entry "0182" "BBVA" "BBVAESMMXXX";
  entry "0188" "BANCO-ALCALA" "ALCLESMMXXX";
  entry "1502" "IKB-DEUTSCHE-INDUSTRIEBANK" "IKBDESM1XXX";
  entry "1500" "NATIXIS-LEASE" "NALEFRP1XXX";
  entry "0065" "BLARCLAYS-BANK" "BARCESMMXXX";
  entry "3089" "CAJA-RURAL-BAENA" "BCOEESMM089";
  entry "1504" "HONDA-BANK" "HONDDEF1XXX";
  entry "0061" "BANCA-MARCH" "BMARES2MXXX";
  entry "3085" "CAJA-RURAL-ZAMORA" "BCOEESMM085";
  entry "1508" "RCI-BANQUE" "RCIDDE31XXX";
  entry "1509" "BANCO-PRIMUS" "PRUUPTP1XXX";
  entry "3081" "CAJA-RURAL-CASTILLALAMANCHA" "BCOEESMM081";
  entry "3080" "CAJA-RURAL-TERUEL" "BCOEESMM080";
  entry "0488" "BANCO-FINANCIERO" "BFASESMMXXX";
  entry "2429" "CAJA-BADAJOZ" "CECAESMM429";
  entry "0169" "BANCO-NACION-ARGENTINA" "NACNESMMXXX";
  entry "0168" "ING-BELGIUM" "BBRUESMXXXX";
  entry "0003" "BANCO-DEPOSITOS" "BDEPESM1XXX";
  entry "2420" "IBERCAJA" "CAZRES2ZXXX";
  entry "0162" "HSBC-BANK" "MIDLESMMXXX";
  entry "0161" "DEUTSCHE-BANK-AMERICAS" "BKTRESM1XXX";
  entry "0160" "BANK-OF-TOKYO" "BOTKESMXXXX";
  entry "0167" "BNP-PARIBAS-FORTIS" "GEBAESMMXXX";
  entry "2426" "CAJA-RONDA" "UCJAES2MXXX";
  entry "0487" "BANCO-MARE-NOSTRUM" "GBMNESMMXXX";
  entry "3070" "CAIXA-RURAL-GALEGA" "BCOEESMM070";
  entry "0149" "BNP-SUCURSLA-ESPANA" "BNPAESMSXXX";
  entry "3076" "CAJA-RURAL-CAJASIETE" "BCOEESMM076";
  entry "3174" "CAIXA-RURAL-VINAROS" "BCOEESMM174";
  entry "3179" "CAJA-RURAL-ALGINET" "BCOEESMM179";
  entry "0073" "OPEN-BANK" "OPENESMMXXX";
  entry "1457" "DELAGE-LANDEN-INTB" "LLISESM1XXX";
  entry "0075" "BANCO-POPULAR" "POPUESMMXXX";
  entry "1451" "CAISSE-REGIONALE-SUDMEDITERRANEE" "CRCGESB1XXX";
  entry "3116" "CAJA-RURAL-MOTACUERVO" "BCOEESMM116";
  entry "2103" "UNICAJA-BANCO" "UCJAES2MXXX";
  entry "0078" "BANCO-PUEYO" "BAPUES22XXX";
  entry "2100" "CAIXABANK" "CAIXESBBXXX";
  entry "1459" "COPERATIVE-RAIFFEISEN" "PRABESMMXXX";
  entry "1513" "CAIXA-GERAL-DEPOSITOS" "CGDIES21XXX";
  entry "2104" "CAJA-SALAMANCA-SORIA" "CSSOES2SXXX";
  entry "2428" "CAJA-CIRCULO-BUROS" "CECAESMM428";
  entry "3146" "CAJA-CREDITO-COOPERATIVO" "CCCVESM1XXX";
  entry "0011" "ALLFUNDS-BANK" "ALLFESMMXXX";
  entry "1475" "CORTAL-CONSORS" "CCSEESM1XXX";
  entry "2433" "CECA" "CECAESMMXXX";
  entry "2432" "CAJA-VITORIA-ALAVA" "CECAESMM097";
  entry "2431" "CAJA-GUIPUZOCA" "CGGKES22XXX";
  entry "2430" "BILBAO-BIZKAIA-KUTXA" "BASKES2BXXX";
  entry "0019" "DEUTSCHE-BANK" "DEUTESBBXXX";
  entry "3063" "CAJA-RURAL-CORDOBA" "BCOEESMM063";
  entry "3060" "CAJA-RURAL-FUENTESEGOVIA" "BCOEESMM060";
  entry "3067" "CAJA-RURAL-JAEN" "BCOEESMM067";
  entry "3110" "CAJA-RURAL-CATOLICOAGRARIA" "BCOESSMM110";
  entry "1472" "CREDIT-AGRICOLE-FACTORING" "UCSSESM1XXX";
  entry "3104" "CAJA-RURAL-CANETETORRES" "BCOEESMM104";
  entry "3105" "CAIXA-RURAL-CALLOSA" "BCOEESMM105";
  entry "1470" "BANCO-PORTUGUES-INVESTIMENTO" "BPIPESM1XXX";
  entry "3102" "CAIXA-SANTFERRER-DUIXO" "BCOEESMM102";
  entry "1538" "INDUSTRIAL-COMMERCIAL-CHINA" "ICBKESMMXXX";
  entry "3186" "CAIXA-RURAL-ALBALAT" "BCOEESMM186";
  entry "3187" "CAJA-RURAL-DELSUR" "BCOEESMM187";
  entry "1505" "EUROPE-ARAB-BANK" "ARABESMMXXX";
  entry "2421" "CAJA-GRANADA" "CECAESMM031";
  entry "0081" "BANCO-SABADELL" "BSABESBBXXX";
  entry "0083" "RENTA4" "RENBESMMXXX";
  entry "0229" "BANCO-POPULAR-ESA" "POPLESMMXXX";
  entry "3191" "CAJA-RURAL-ARAGON" "BCOEESMM191";
  entry "0220" "BANCO-FINANTIA-CAPITAL" "FIOFESM1XXX";
  entry "2424" "CAJA-BALEARES" "CECAESMM051";
  entry "0223" "GENERAL-ELECTRIC-BANK" "GEECESB1XXX";
  entry "0224" "SANTANDER-CONSUMER" "SCFBESMMXXX";
  entry "0225" "BANCO-CETELEM" "FIEIESM1XXX";
  entry "0226" "UBS-BANK" "UBSWESMMXXX";
  entry "0227" "UNOE-BANK" "UNOEESM1XXX";
  entry "3058" "CAJAS-RURALES-UNIDAS CAJAMAR" "CCRIES2AXXX";
  entry "3059" "CAJA-RURAL-ASTURIAS" "BCOEESMM059";
  entry "1501" "DEUTSCHE-PFANDBRIEFBANK" "DPBBESM1XXX";
  entry "2427" "CAJA-INMACULADA" "CECAESMM427";
  entry "2422" "CAJA-MURCIA" "CECAESMM043";
  entry "3098" "CAJA-RURAL-NTRASE\u00d1ORAROSARIO" "BCOEESMM098";
  entry "3135" "CAJA-RURAL-SANJOSENULES" "BCOEESMM135";
  entry "1479" "NATIXIS" "NATXESMMXXX";
  entry "3119" "CAJA-RURAL-SANJAIME" "BCOEESMM119";
  entry "3118" "CAIXA-RURAL-TORRENT" "BCOEESMM118";
  entry "3117" "CAIXA-RURAL-DALGEMESI" "BCOEESMM117";
  entry "0196" "PORTIGON-AG" "WELAESMMXXX";
  entry "2080" "NGC-BANCO" "CAGLESMMVIG";
  entry "2086" "BANCO-GRUPO-CAJATRES" "CECAESMM086";
  entry "3112" "CAJA-RURAL-SANJOSEBURRIANA" "BCOEESMM112";
  entry "3111" "CAJA-RURAL-LAVALLSISIDRO" "BCOEESMM111";
  entry "2085" "IBERCAJA-BANCO" "CAZRES2ZXXX";
  entry "0156" "ROYAL-BANK-SCOTLAND" "ABNAESMMXXX";
  entry "1473" "BANQUE-PREIVEE EDMOND" "PRIBESMXXXX";
  entry "0154" "CREDIT-AGRICOLE-INVETBANK" "BSUIESMMXXX";
  entry "0155" "BANCO-DO-BRASIL" "BRASESMMXXX";
  entry "0152" "BARCLAYS-BANK" "BPLCESMMXXX";
  entry "1474" "CITIBANK-INTERNACIONAL" "CITIESMXXXX";
  entry "0151" "JPMORGAN" "CHASESM3XXX";
  entry "0094" "RBC-INVESTOR" "BVALESMMXXX";
  entry "0159" "COMMERZBANK" "COBAESMXXXX"
]%string.

(** [bank in BANKS]: membership among the keys. *)
Definition in_BANKS (bank : str) : bool := Py.contains (map fst BANKS) bank.

Module BBAN.

(** The attributes [BBAN.__init__] sets. *)
Record t : Set := new { bank : str; branch : str; account : str }.

Definition first_weights : list Z := [4; 8; 5; 10; 9; 7; 3; 6].

Definition second_weights : list Z := [1; 2; 4; 8; 5; 10; 9; 7; 3; 6].

(** [BBAN._first_check_digit(bank, branch)]. *)
Definition _first_check_digit (bank branch : str) : result str :=
  concat <- Py.map_int (bank ++ branch) ;;
  let multi_seq := first_weights in
  let multi_result := Py.zip_mul concat multi_seq in
  let multi_sum := Py.sum multi_result in
  let remainder := multi_sum mod 11 in
  let digit := 11 - remainder in
  let digit := if digit =? 10 then 1 else if digit =? 11 then 0 else digit in
  Ok (Py.str_ digit).

(** [BBAN._second_check_digit(account)]. *)
Definition _second_check_digit (account : str) : result str :=
  concat <- Py.map_int account ;;
  let multi_seq := second_weights in
  let multi_result := Py.zip_mul concat multi_seq in
  let multi_sum := Py.sum multi_result in
  let remainder := multi_sum mod 11 in
  let digit := 11 - remainder in
  let digit := if digit =? 10 then 1 else if digit =? 11 then 0 else digit in
  Ok (Py.str_ digit).

(** [BBAN.validate(number)]. *)
Definition validate (number : str) : result str :=
  if negb (Nat.eqb (List.length number) 20) then Raise BBANInvalidLength
  else
    let bank := Py.slice number 0 4 in
    let branch := Py.slice number 4 8 in
    first_check_digit <- Py.getitem number 8 ;;
    second_check_digit <- Py.getitem number 9 ;;
    let account := Py.slice_from number 10 in
    if negb (in_BANKS bank) then Raise BBANInvalidBankCode
    else
      real_first_check_digit <- _first_check_digit bank branch ;;
      if negb (Py.str_eqb [first_check_digit] real_first_check_digit)
      then Raise BBANInvalidBankBranchCheckDigit
      else
        real_second_check_digit <- _second_check_digit account ;;
        if negb (Py.str_eqb [second_check_digit] real_second_check_digit)
        then Raise BBANInvalidAccountCheckDigit
        else Ok number.

(** [BBAN(number)], that is [BBAN.__init__]. *)
Definition __init__ (number : str) : result t :=
  _ <- validate number ;;
  Ok {| bank := Py.slice number 0 4;
        branch := Py.slice number 4 8;
        account := Py.slice_from number 10 |}.

(** The property [check_digit]. *)
Definition check_digit (self : t) : result str :=
  d1 <- _first_check_digit (bank self) (branch self) ;;
  d2 <- _second_check_digit (account self) ;;
  Ok (d1 ++ d2).

(** The property [number]. *)
Definition number (self : t) : result str :=
  cd <- check_digit self ;;
  validate (bank self ++ branch self ++ cd ++ account self).

(** [BBAN.__repr__]. *)
Definition __repr__ (self : t) : result str :=
  cd <- check_digit self ;;
  Ok (Py.join (py " ") [bank self; branch self; cd; account self]).

(** [BBAN.generate(bank, branch, account)]; [r] is what
    [random.randrange(9999999999)] returns, consulted only when [account]
    is [None].  The locals [first_cd] and [second_cd] are assigned inside
    the [if] only, and read by the [return] statement after it. *)
Definition generate (bank branch : str) (account : option str) (r : Z)
  : result t :=
  locals <-
    match account with
    | None =>
        let number := Py.str_ r in
        let account := Py.zfill 10 number in
        first_cd <- _first_check_digit bank branch ;;
        second_cd <- _second_check_digit account ;;
        Ok (account, Some first_cd, Some second_cd)
    | Some account => Ok (account, None, None)
    end ;;
  let '(account, first_cd, second_cd) := locals in
  first_cd <- Py.load first_cd ;;
  second_cd <- Py.load second_cd ;;
  __init__ (bank ++ branch ++ first_cd ++ second_cd ++ account).

End BBAN.

Module IBAN.

(** The attributes [IBAN.__init__] sets. *)
Record t : Set := new { country : str; bban : BBAN.t }.

(** The loop of step 4 of [_calc_check_digit], with its accumulator. *)
Fixpoint substitute_letters (alphabet_seq : list str) (bban new_number : str)
  : result str :=
  match bban with
  | [] => Ok new_number
  | c :: rest =>
      piece <- (if Py.isalpha c
                then (i <- Py.index alphabet_seq [c] ;;
                      Ok (Py.str_ (Z.of_nat i + 10)))
                else Ok [c]) ;;
      substitute_letters alphabet_seq rest (new_number ++ piece)
  end.

(** [IBAN._calc_check_digit(number)]. *)
Definition _calc_check_digit (number : str) : result str :=
  let bban := Py.slice number 4 8 in
  let country := Py.slice number 0 2 ++ py "00" in
  let bban := bban ++ country in
  let alphabet_seq := Py.ascii_uppercase in
  new_number <- substitute_letters alphabet_seq bban [] ;;
  n <- Py.int new_number ;;
  Ok (Py.zfill 2 (Py.str_ (98 - n mod 97))).

(** [IBAN.validate(number)]. *)
Definition validate (number : str) : result str :=
  if negb (Nat.eqb (List.length number) 24) then Raise IBANInvalidLength
  else
    let country := Py.slice number 0 2 in
    let check_digit := Py.slice number 2 4 in
    let bank := Py.slice number 4 8 in
    if negb (Py.str_eqb (Py.upper country) (py "ES"))
    then Raise IBANInvalidCountry
    else
      real_check_digit <- _calc_check_digit number ;;
      if negb (Py.str_eqb check_digit real_check_digit)
      then Raise IBANInvalidCheckDigit
      else
        if negb (in_BANKS bank) then Raise IBANInvalidBankCode
        else Ok number.

(** [IBAN(number)], that is [IBAN.__init__]. *)
Definition __init__ (number : str) : result t :=
  _ <- validate number ;;
  b <- BBAN.__init__ (Py.slice_from number 4) ;;
  Ok {| country := Py.slice number 0 2; bban := b |}.

(** The property [check_digit]. *)
Definition check_digit (self : t) : result str :=
  n <- BBAN.number (bban self) ;;
  _calc_check_digit (country self ++ py "00" ++ n).

(** The property [number]. *)
Definition number (self : t) : result str :=
  cd <- check_digit self ;;
  n <- BBAN.number (bban self) ;;
  validate (country self ++ cd ++ n).

(** [IBAN.__repr__]. *)
Definition __repr__ (self : t) : result str :=
  cd <- check_digit self ;;
  inner <- BBAN.__repr__ (bban self) ;;
  Ok (Py.join (py " ") [country self ++ cd; inner]).

(** [IBAN.generate(bank, branch, account)]; [r] as in [BBAN.generate]. *)
Definition generate (bank branch : str) (account : option str) (r : Z)
  : result t :=
  b <- BBAN.generate bank branch account r ;;
  bban <- BBAN.number b ;;
  let country := py "ES" in
  check_digit <- _calc_check_digit (country ++ py "00" ++ bban) ;;
  __init__ (country ++ check_digit ++ bban).

End IBAN.

Module Bank.

(** The attributes [Bank.__init__] sets. *)
Record t : Set := new {
  country : str; code : str; branch : str; name : str; bic : str }.

(** [BANKS[code]]: [None] stands for the [KeyError] of a missing key. *)
Fixpoint lookup (banks : list (str * bank_info)) (code : str)
  : option bank_info :=
  match banks with
  | [] => None
  | (k, v) :: rest => if Py.str_eqb k code then Some v else lookup rest code
  end.

(** The default of the parameter [branch]. *)
Definition default_branch : str := py "000".

(** [Bank(code, branch)]; [None] when [KeyError] propagates.  Every entry
    of [BANKS] carries both fields, so the second subscript cannot fail. *)
Definition __init__ (code branch : str) : option t :=
  match lookup BANKS code with
  | Some info =>
      Some {| country := py "ES"; code := code; branch := branch;
              name := bankaccount.name info; bic := bankaccount.bic info |}
  | None => None
  end.

End Bank.

End bankaccount.

(** ** Reference definitions the properties are stated against *)

Module Ref.

(** Section 4.1 of the specification: the sum of [digits[i] * weights[i]]. *)
Fixpoint weighted_sum (digits weights : list Z) : Z :=
  match digits, weights with
  | d :: ds, w :: ws => d * w + weighted_sum ds ws
  | _, _ => 0
  end.

(** Step 5 of both docstrings: the complement to eleven, with 10 written
    1 and 11 written 0. *)
Definition eleven_complement (multi_sum : Z) : Z :=
  let digit := 11 - multi_sum mod 11 in
  if digit =? 10 then 1 else if digit =? 11 then 0 else digit.

(** The ISO 13616 rule as the specification and the docstring of
    [_calc_check_digit] word it.  (a) The whole BBAN comes first, the
    country code and the placeholder [00] go to the end. *)
Definition iso_rearrange (number : str) : str :=
  Py.slice_from number 4 ++ Py.slice number 0 2 ++ py "00".

(** (b) A letter becomes the decimal digits of its rank, A = 10 .. Z = 35;
    a digit stays; nothing else may occur. *)
Definition iso_substitute (c : ascii) : option str :=
  if Py.isdigit c then Some [c]
  else if Py.isupper c then Some (Py.str_ (Py.code c - 55))
  else None.

Fixpoint iso_digits (s : str) : option str :=
  match s with
  | [] => Some []
  | c :: rest =>
      match iso_substitute c, iso_digits rest with
      | Some d, Some ds => Some (d ++ ds)
      | _, _ => None
      end
  end.

(** (c) the digit string read as an unbounded integer, (d) 98 minus its
    remainder modulo 97, padded to two digits. *)
Definition iso_mod97_check_digit (number : str) : option str :=
  match iso_digits (iso_rearrange number) with
  | Some ds => Some (Py.zfill 2 (Py.str_ (98 - Py.digits_val ds mod 97)))
  | None => None
  end.

(** The [k] decimal digits of [n], most significant first. *)
Fixpoint fixed_digits (k : nat) (n : Z) : str :=
  match k with
  | O => []
  | S k' => fixed_digits k' (n / 10) ++ [Py.digit_chr (n mod 10)]
  end.

(** Only decimal digits. *)
Definition all_digits (s : str) : bool := forallb Py.isdigit s.

(** Section 4.4 of the specification: the numeric value of a code is that
    of its first eight characters, a leading X, Y or Z standing for the
    digit 0, 1 or 2. *)
Definition prefix_index (c : ascii) : option Z :=
  if Py.chr_eqb c "X" then Some 0
  else if Py.chr_eqb c "Y" then Some 1
  else if Py.chr_eqb c "Z" then Some 2
  else None.

Definition numeric_value (code : str) : Z :=
  match code with
  | c :: rest =>
      match prefix_index c with
      | Some i => i * 10 ^ 7 + Py.digits_val (firstn 7 rest)
      | None => Py.digits_val (firstn 8 code)
      end
  | [] => 0
  end.

End Ref.

(** * Properties *)

(** ** Facts about the built-ins *)

Module PyFacts.
Import Py Ref.

Ltac by_chars c :=
  destruct c as [[|] [|] [|] [|] [|] [|] [|] [|]]; vm_compute;
  try reflexivity; try discriminate; try congruence.

Lemma bind_Ok {A B : Type} (a : A) (k : A -> result B) : bind (Ok a) k = k a.
Proof. reflexivity. Qed.

Lemma str_eqb_eq (s t : str) : str_eqb s t = true <-> s = t.
Proof.
  revert t; induction s as [|c s IH]; intros [|d t]; simpl;
    try (split; (reflexivity || discriminate)).
  unfold chr_eqb. rewrite andb_true_iff, Ascii.eqb_eq, IH.
  split; [intros [-> ->]; reflexivity | intros [= -> ->]; auto].
Qed.

Lemma str_eqb_refl (s : str) : str_eqb s s = true.
Proof. apply str_eqb_eq; reflexivity. Qed.

Lemma str_eqb_neq (s t : str) : str_eqb s t = false <-> s <> t.
Proof.
  destruct (str_eqb s t) eqn:E.
  - apply str_eqb_eq in E. split; [discriminate | congruence].
  - split; [intros _ H; apply str_eqb_eq in H; congruence | reflexivity].
Qed.

(** *** Characters *)

Lemma isdigit_not_space (c : ascii) : isdigit c = true -> isspace c = false.
Proof. by_chars c. Qed.

Lemma isdigit_not_sign (c : ascii) :
  isdigit c = true -> chr_eqb c "+" = false /\ chr_eqb c "-" = false.
Proof. by_chars c; split; reflexivity. Qed.

Lemma isdigit_not_alpha (c : ascii) : isdigit c = true -> isalpha c = false.
Proof. by_chars c. Qed.

Lemma isdigit_not_foreign (c : ascii) :
  isdigit c = true -> contains pin.foreign [c] = false.
Proof. by_chars c. Qed.

Lemma digit_chr_val (c : ascii) :
  isdigit c = true -> digit_chr (digit_val c) = c.
Proof. by_chars c. Qed.

Lemma digit_range (d : Z) :
  0 <= d < 10 ->
  d = 0 \/ d = 1 \/ d = 2 \/ d = 3 \/ d = 4 \/ d = 5 \/ d = 6 \/ d = 7 \/
  d = 8 \/ d = 9.
Proof. lia. Qed.

Lemma digit_chr_isdigit (d : Z) : 0 <= d < 10 -> isdigit (digit_chr d) = true.
Proof.
  intros H; destruct (digit_range d H) as [?|[?|[?|[?|[?|[?|[?|[?|[?|?]]]]]]]]];
    subst; reflexivity.
Qed.

Lemma digit_val_chr (d : Z) : 0 <= d < 10 -> digit_val (digit_chr d) = d.
Proof.
  intros H; destruct (digit_range d H) as [?|[?|[?|[?|[?|[?|[?|[?|[?|?]]]]]]]]];
    subst; reflexivity.
Qed.

Lemma digit_val_range (c : ascii) : isdigit c = true -> 0 <= digit_val c < 10.
Proof.
  unfold isdigit, digit_val. rewrite andb_true_iff, !Z.leb_le. lia.
Qed.

(** *** [int] on digit strings *)

Lemma span_digits_all (s : str) : all_digits s = true -> span_digits s = (s, []).
Proof.
  induction s as [|c s IH]; simpl; [reflexivity|].
  rewrite andb_true_iff; intros [Hc Hs]. rewrite Hc, (IH Hs). reflexivity.
Qed.

Lemma int_digits (s : str) :
  s <> [] -> all_digits s = true -> int s = Ok (digits_val s).
Proof.
  destruct s as [|c s]; [congruence|]. intros _ H.
  pose proof H as Hall. simpl in H. apply andb_true_iff in H as [Hc _].
  unfold int.
  assert (Hl : lstrip (c :: s) = c :: s)
    by (simpl; rewrite (isdigit_not_space c Hc); reflexivity).
  rewrite Hl. unfold split_sign.
  destruct (isdigit_not_sign c Hc) as [-> ->].
  rewrite Hl, (span_digits_all _ Hall). simpl forallb. cbv iota.
  f_equal. lia.
Qed.

Lemma int_chr_digit (c : ascii) : isdigit c = true -> int [c] = Ok (digit_val c).
Proof.
  intros H. rewrite int_digits; [|discriminate|simpl; rewrite H; reflexivity].
  unfold digits_val; simpl. f_equal; lia.
Qed.

Lemma int_chr_other (c : ascii) : isdigit c = false -> int [c] = Raise ValueError.
Proof. by_chars c. Qed.

Lemma map_int_digits (s : str) :
  all_digits s = true -> map_int s = Ok (map digit_val s).
Proof.
  induction s as [|c s IH]; simpl; [reflexivity|].
  rewrite andb_true_iff; intros [Hc Hs].
  rewrite (int_chr_digit c Hc), (IH Hs). reflexivity.
Qed.

Lemma map_int_other (s : str) :
  all_digits s = false -> map_int s = Raise ValueError.
Proof.
  induction s as [|c s IH]; simpl; [discriminate|].
  destruct (isdigit c) eqn:Hc; simpl.
  - intros Hs. rewrite (int_chr_digit c Hc), (IH Hs). reflexivity.
  - intros _. rewrite (int_chr_other c Hc). reflexivity.
Qed.

Lemma map_int_inv (s : str) (ds : list Z) :
  map_int s = Ok ds -> all_digits s = true /\ ds = map digit_val s.
Proof.
  intros H. destruct (all_digits s) eqn:E.
  - rewrite (map_int_digits s E) in H. split; congruence.
  - rewrite (map_int_other s E) in H. discriminate.
Qed.

Lemma all_digits_app (s t : str) :
  all_digits (s ++ t) = all_digits s && all_digits t.
Proof. apply forallb_app. Qed.

(** *** Fixed-width decimal digits *)

Lemma fixed_digits_length (k : nat) (n : Z) : List.length (fixed_digits k n) = k.
Proof.
  revert n; induction k as [|k IH]; intros n; simpl; [reflexivity|].
  rewrite length_app, IH. simpl. lia.
Qed.

Lemma fixed_digits_all (k : nat) (n : Z) : all_digits (fixed_digits k n) = true.
Proof.
  revert n; induction k as [|k IH]; intros n; simpl; [reflexivity|].
  rewrite all_digits_app, IH. simpl.
  rewrite digit_chr_isdigit by (apply Z.mod_pos_bound; lia). reflexivity.
Qed.

Lemma digits_val_snoc (s : str) (c : ascii) :
  digits_val (s ++ [c]) = 10 * digits_val s + digit_val c.
Proof. unfold digits_val. rewrite fold_left_app. reflexivity. Qed.

Lemma fixed_digits_val (k : nat) (n : Z) :
  0 <= n < 10 ^ Z.of_nat k -> digits_val (fixed_digits k n) = n.
Proof.
  revert n; induction k as [|k IH]; intros n Hn.
  - simpl in *. unfold digits_val; simpl. lia.
  - rewrite Nat2Z.inj_succ, Z.pow_succ_r in Hn by lia.
    simpl. rewrite digits_val_snoc, IH, digit_val_chr.
    + pose proof (Z.div_mod n 10). lia.
    + apply Z.mod_pos_bound; lia.
    + split; [apply Z.div_pos; lia | apply Z.div_lt_upper_bound; lia].
Qed.

Lemma fixed_digits_zero (k : nat) : fixed_digits k 0 = repeat "0"%char k.
Proof.
  induction k as [|k IH]; [reflexivity|].
  simpl fixed_digits. change (0 / 10) with 0. rewrite IH.
  symmetry. apply (repeat_cons k "0"%char).
Qed.

Lemma fixed_digits_small (k : nat) (n : Z) :
  0 <= n < 10 ->
  fixed_digits (S k) n = repeat "0"%char k ++ [digit_chr n].
Proof.
  intros Hn. simpl.
  rewrite Z.div_small, Z.mod_small, fixed_digits_zero by lia. reflexivity.
Qed.

(** *** [str] and [zfill] *)

Lemma str_digits_nonempty (f : nat) (n : Z) : str_digits (S f) n <> [].
Proof.
  simpl. destruct (n <? 10); [discriminate|].
  destruct (str_digits f (n / 10)); discriminate.
Qed.

Lemma str_digits_fixed (f : nat) :
  forall (n : Z) (k : nat),
    0 <= n < 10 ^ Z.of_nat k -> (1 <= k)%nat -> n < 2 ^ Z.of_nat f ->
    all_digits (str_digits f n) = true /\
    (List.length (str_digits f n) <= k)%nat /\
    repeat "0"%char (k - List.length (str_digits f n)) ++ str_digits f n
    = fixed_digits k n.
Proof.
  induction f as [|f IH]; intros n k Hn Hk Hf.
  - assert (n = 0) by (simpl in Hf; lia). subst n. simpl.
    rewrite Nat.sub_0_r, app_nil_r, fixed_digits_zero.
    repeat split; lia.
  - simpl str_digits. destruct (Z.ltb_spec n 10) as [Hlt|Hge].
    + destruct k as [|k]; [lia|].
      rewrite fixed_digits_small by lia. simpl.
      rewrite digit_chr_isdigit by lia. rewrite Nat.sub_0_r.
      repeat split; lia.
    + destruct k as [|[|k]]; [lia | simpl in Hn; lia |].
      rewrite Nat2Z.inj_succ, Z.pow_succ_r in Hn, Hf by lia.
      destruct (IH (n / 10) (S k)) as (Ha & Hl & He).
      * split; [apply Z.div_pos; lia | apply Z.div_lt_upper_bound; lia].
      * lia.
      * apply Z.div_lt_upper_bound; lia.
      * change (fixed_digits (S (S k)) n)
          with (fixed_digits (S k) (n / 10) ++ [digit_chr (n mod 10)]).
        rewrite <- He, all_digits_app, Ha, length_app.
        cbn [all_digits forallb List.length andb].
        rewrite digit_chr_isdigit by (apply Z.mod_pos_bound; lia).
        repeat split; [lia|].
        rewrite <- app_assoc. f_equal. f_equal. lia.
Qed.

Lemma digits_fuel_enough (n : Z) : 0 <= n -> n < 2 ^ Z.of_nat (digits_fuel n).
Proof.
  intros Hn. unfold digits_fuel.
  rewrite Nat2Z.inj_succ, Z2Nat.id by apply Z.log2_nonneg.
  destruct (Z.eq_dec n 0) as [->|Hz]; [reflexivity|].
  apply Z.log2_spec; lia.
Qed.

Lemma zfill_digits (k : nat) (s : str) :
  all_digits s = true ->
  zfill k s = repeat "0"%char (k - List.length s) ++ s.
Proof.
  destruct s as [|c s]; intros H; unfold zfill.
  - rewrite app_nil_r. reflexivity.
  - simpl in H. apply andb_true_iff in H as [Hc _].
    destruct (isdigit_not_sign c Hc) as [-> ->]. reflexivity.
Qed.

(** [str(n).zfill(k)] is the [k]-digit numeral of [n] whenever [n] fits. *)
Lemma zfill_str_fixed (k : nat) (n : Z) :
  (1 <= k)%nat -> 0 <= n < 10 ^ Z.of_nat k ->
  zfill k (str_ n) = fixed_digits k n.
Proof.
  intros Hk Hn. unfold str_.
  destruct (Z.ltb_spec n 0) as [?|_]; [lia|].
  destruct (str_digits_fixed (digits_fuel n) n k Hn Hk
              (digits_fuel_enough n (proj1 Hn))) as (Ha & _ & He).
  rewrite zfill_digits by exact Ha. exact He.
Qed.

Lemma str_digit (d : Z) : 0 <= d < 10 -> str_ d = [digit_chr d].
Proof.
  intros Hd. unfold str_, digits_fuel.
  destruct (Z.ltb_spec d 0) as [?|_]; [lia|]. simpl.
  destruct (Z.ltb_spec d 10) as [_|?]; [reflexivity | lia].
Qed.

Lemma replace_chr_absent (old : ascii) (new s : str) :
  forallb (fun c => negb (chr_eqb c old)) s = true ->
  replace_chr old new s = s.
Proof.
  induction s as [|c s IH]; simpl; [reflexivity|].
  rewrite andb_true_iff, negb_true_iff. intros [-> Hs].
  rewrite (IH Hs). reflexivity.
Qed.

Lemma replace_chr_digits (old : ascii) (new s : str) :
  isdigit old = false -> all_digits s = true -> replace_chr old new s = s.
Proof.
  intros Ho Hs. apply replace_chr_absent.
  induction s as [|c s IH]; simpl in *; [reflexivity|].
  apply andb_true_iff in Hs as [Hc Hs]. rewrite (IH Hs), andb_true_r.
  apply negb_true_iff. unfold chr_eqb.
  destruct (Ascii.eqb_spec c old) as [->|_]; [congruence | reflexivity].
Qed.

(** *** Lists and slices *)

Lemma sum_cons (x : Z) (l : list Z) : sum (x :: l) = x + sum l.
Proof.
  unfold sum. simpl.
  enough (G : forall a b, fold_left Z.add l (a + b) = a + fold_left Z.add l b)
    by (rewrite <- (Z.add_0_r x) at 1; rewrite G; reflexivity).
  induction l as [|y l IH]; intros a b; simpl; [reflexivity|].
  rewrite <- Z.add_assoc. apply IH.
Qed.

Lemma sum_zip_mul (ds ws : list Z) : sum (zip_mul ds ws) = weighted_sum ds ws.
Proof.
  revert ws; induction ds as [|d ds IH]; intros [|w ws]; try reflexivity.
  unfold zip_mul in *. simpl. rewrite sum_cons, IH. reflexivity.
Qed.

Lemma slice_app_left {A : Type} (s t : list A) (n : nat) :
  List.length s = n -> slice (s ++ t) 0 n = s.
Proof.
  intros <-. unfold slice. simpl. rewrite Nat.sub_0_r.
  rewrite firstn_app, Nat.sub_diag, firstn_all. simpl. apply app_nil_r.
Qed.

Lemma skipn_app_left {A : Type} (s t : list A) (n : nat) :
  List.length s = n -> skipn n (s ++ t) = t.
Proof.
  intros <-. rewrite skipn_app, skipn_all, Nat.sub_diag. reflexivity.
Qed.

Lemma nth_error_app_left {A : Type} (s t : list A) (n : nat) :
  List.length s = n -> nth_error (s ++ t) n = nth_error t 0.
Proof.
  intros <-. rewrite nth_error_app2, Nat.sub_diag by lia. reflexivity.
Qed.

End PyFacts.

(** ** National identity codes *)

Module DNIFacts.
Import Py Ref PyFacts pin.

Lemma letters_getitem (m : Z) :
  0 <= m < 23 -> exists c, getitem letters (Z.to_nat m) = Ok [c].
Proof.
  intros Hm. assert (H : (Z.to_nat m < 23)%nat) by lia.
  revert H. generalize (Z.to_nat m) as i. intros i H.
  do 23 (destruct i as [|i]; [eexists; reflexivity|]). lia.
Qed.

Lemma digits_val_acc (s : str) (a : Z) :
  fold_left (fun acc c => 10 * acc + digit_val c) s a
  = a * 10 ^ Z.of_nat (List.length s) + digits_val s.
Proof.
  unfold digits_val. revert a.
  induction s as [|c s IH]; intros a; cbn [fold_left List.length].
  - change (Z.of_nat 0) with 0. rewrite Z.pow_0_r. ring.
  - rewrite (IH (10 * a + digit_val c)), (IH (10 * 0 + digit_val c)),
      Nat2Z.inj_succ, Z.pow_succ_r by lia.
    ring.
Qed.

Lemma digits_val_cons (d : ascii) (s : str) :
  digits_val (d :: s) = digit_val d * 10 ^ Z.of_nat (List.length s) + digits_val s.
Proof.
  unfold digits_val at 1. cbn [fold_left]. rewrite digits_val_acc. ring.
Qed.

Lemma prefix_index_digit (c : ascii) : isdigit c = true -> prefix_index c = None.
Proof. by_chars c. Qed.

(** What [national] returns on a draw of [random.randint(0, 9999999)]. *)
Lemma national_spec (r : Z) :
  0 <= r < 10 ^ 8 ->
  exists c,
    DNI.national r = Ok (fixed_digits 8 r ++ [c]) /\
    getitem letters (Z.to_nat (r mod 23)) = Ok [c].
Proof.
  intros Hr. unfold DNI.national.
  rewrite zfill_str_fixed by (try exact Hr; lia).
  rewrite int_digits, bind_Ok, fixed_digits_val by
    (try exact Hr; try apply fixed_digits_all;
     intros E; apply (f_equal (@List.length _)) in E;
     rewrite fixed_digits_length in E; discriminate).
  destruct (letters_getitem (r mod 23)) as [c Hc];
    [apply Z.mod_pos_bound; lia|].
  exists c. rewrite Hc. split; reflexivity.
Qed.

(** The three positions [random.choice(foreign)] can pick. *)
Lemma foreign_choice (j : nat) :
  (j < 3)%nat ->
  exists p,
    getitem pin.foreign j = Ok [p] /\
    index pin.foreign [p] = Ok j /\
    contains pin.foreign [p] = true /\
    prefix_index p = Some (Z.of_nat j) /\
    isdigit p = false.
Proof.
  intros Hj. destruct j as [|[|[|j]]]; [| | |lia];
    eexists; repeat split; reflexivity.
Qed.

Lemma int_prefixed (d : Z) (dni : str) :
  0 <= d < 10 -> all_digits dni = true ->
  int (str_ d ++ dni)
  = Ok (d * 10 ^ Z.of_nat (List.length dni) + digits_val dni).
Proof.
  intros Hd Hdni. rewrite (str_digit d Hd).
  change ([digit_chr d] ++ dni) with (digit_chr d :: dni).
  rewrite int_digits; [| discriminate |].
  - rewrite digits_val_cons, digit_val_chr by lia. reflexivity.
  - cbn [all_digits forallb]. rewrite digit_chr_isdigit by lia. exact Hdni.
Qed.

(** What [foreign] returns on the position [j] and the draw [r]. *)
Lemma foreign_spec (j : nat) (r : Z) :
  (j < 3)%nat -> 0 <= r < 10 ^ 7 ->
  exists p c,
    getitem pin.foreign j = Ok [p] /\
    DNI.foreign j r = Ok ([p] ++ fixed_digits 7 r ++ [c]) /\
    getitem letters (Z.to_nat ((Z.of_nat j * 10 ^ 7 + r) mod 23)) = Ok [c].
Proof.
  intros Hj Hr.
  destruct (letters_getitem ((Z.of_nat j * 10 ^ 7 + r) mod 23)) as [c Hc];
    [apply Z.mod_pos_bound; lia|].
  destruct (foreign_choice j Hj) as (p & Hg & Hi & _).
  exists p, c. unfold DNI.foreign.
  rewrite zfill_str_fixed by (try exact Hr; lia).
  rewrite Hg, bind_Ok, Hi, bind_Ok.
  rewrite int_prefixed, fixed_digits_length, fixed_digits_val, bind_Ok
    by (try exact Hr; try apply fixed_digits_all; lia).
  change (Z.of_nat 7) with 7. rewrite Hg, Hc. repeat split; reflexivity.
Qed.

(** [validate] on eight digits followed by a letter. *)
Lemma validate_digits_body (body : str) (c : ascii) :
  List.length body = 8%nat -> all_digits body = true ->
  DNI.validate (body ++ [c]) =
  (l <- getitem letters (Z.to_nat (digits_val body mod 23)) ;;
   Ok (str_eqb [c] l)).
Proof.
  intros Hl Hd. unfold DNI.validate.
  rewrite length_app, Hl. cbn [List.length Nat.add Nat.eqb negb].
  unfold getitem at 1. rewrite (nth_error_app_left body [c] 8 Hl).
  cbn [nth_error bind]. rewrite (slice_app_left body [c] 8 Hl).
  destruct body as [|b0 body]; [discriminate|].
  cbn [getitem nth_error bind].
  pose proof Hd as Hd'. simpl in Hd'. apply andb_true_iff in Hd' as [Hb0 _].
  rewrite (isdigit_not_foreign b0 Hb0). cbn [bind].
  rewrite int_digits by (try exact Hd; discriminate). reflexivity.
Qed.

(** [validate] on a foreign prefix, seven digits and a letter. *)
Lemma validate_prefixed_body (j : nat) (p : ascii) (dni : str) (c : ascii) :
  getitem pin.foreign j = Ok [p] ->
  List.length dni = 7%nat -> all_digits dni = true ->
  DNI.validate ([p] ++ dni ++ [c]) =
  (l <- getitem letters
          (Z.to_nat ((Z.of_nat j * 10 ^ 7 + digits_val dni) mod 23)) ;;
   Ok (str_eqb [c] l)).
Proof.
  intros Hp Hl Hd.
  assert (Hj : (j < 3)%nat).
  { change 3%nat with (List.length pin.foreign). apply nth_error_Some.
    unfold getitem in Hp. destruct (nth_error pin.foreign j); discriminate. }
  destruct (foreign_choice j Hj) as (p' & Hg & Hi & Hin & _ & Hnd).
  rewrite Hp in Hg. injection Hg as <-.
  unfold DNI.validate.
  change ([p] ++ dni ++ [c]) with ((p :: dni) ++ [c]).
  assert (Hl8 : List.length (p :: dni) = 8%nat) by (simpl; lia).
  rewrite length_app, Hl8. cbn [List.length Nat.add Nat.eqb negb].
  unfold getitem at 1. rewrite (nth_error_app_left (p :: dni) [c] 8 Hl8).
  cbn [nth_error bind]. rewrite (slice_app_left (p :: dni) [c] 8 Hl8).
  unfold getitem at 1. cbn [nth_error bind].
  rewrite Hin, Hi, bind_Ok, bind_Ok.
  cbn [replace_chr]. unfold chr_eqb at 1. rewrite Ascii.eqb_refl.
  rewrite replace_chr_digits by assumption.
  rewrite int_prefixed, Hl by (try assumption; lia). reflexivity.
Qed.

Lemma getitem_Ok {A : Type} (l : list A) (i : nat) (x : A) :
  getitem l i = Ok x -> nth_error l i = Some x.
Proof. unfold getitem. destruct (nth_error l i); congruence. Qed.

Lemma fixed_digits_lead (k : nat) :
  forall n : Z,
    0 <= n < 10 ^ Z.of_nat k ->
    fixed_digits (S k) n = "0"%char :: fixed_digits k n.
Proof.
  induction k as [|k IH]; intros n Hn.
  - assert (n = 0) by (simpl in Hn; lia). subst n. reflexivity.
  - rewrite Nat2Z.inj_succ, Z.pow_succ_r in Hn by lia.
    change (fixed_digits (S (S k)) n)
      with (fixed_digits (S k) (n / 10) ++ [digit_chr (n mod 10)]).
    rewrite IH; [reflexivity|].
    split; [apply Z.div_pos; lia | apply Z.div_lt_upper_bound; lia].
Qed.

Lemma firstn_app_left {A : Type} (s t : list A) (n : nat) :
  List.length s = n -> firstn n (s ++ t) = s.
Proof.
  intros <-. rewrite firstn_app, Nat.sub_diag, firstn_all. simpl.
  apply app_nil_r.
Qed.

(** *** The generator passes its own validation *)

Lemma national_validates (r : Z) :
  0 <= r <= 9999999 ->
  exists pin c,
    DNI.national r = Ok pin /\ DNI.validate pin = Ok true /\
    List.length pin = 9%nat /\ nth_error pin 8 = Some c /\
    nth_error letters (Z.to_nat (numeric_value pin mod 23)) = Some [c].
Proof.
  intros Hr.
  destruct (national_spec r) as (c & Hn & Hc); [lia|].
  exists (fixed_digits 8 r ++ [c]), c.
  pose proof (fixed_digits_length 8 r) as Hl.
  pose proof (fixed_digits_all 8 r) as Hd.
  pose proof (fixed_digits_val 8 r ltac:(lia)) as Hv.
  split; [|split; [|split; [|split]]].
  - exact Hn.
  - rewrite validate_digits_body, Hv, Hc, bind_Ok, str_eqb_refl by assumption.
    reflexivity.
  - rewrite length_app, Hl. reflexivity.
  - rewrite (nth_error_app_left _ _ 8 Hl). reflexivity.
  - rewrite (fixed_digits_lead 7 r) in * by lia.
    cbn [numeric_value app]. rewrite prefix_index_digit by reflexivity.
    change ("0"%char :: fixed_digits 7 r ++ [c])
      with (("0"%char :: fixed_digits 7 r) ++ [c]).
    rewrite (firstn_app_left _ _ 8 Hl), Hv. apply getitem_Ok, Hc.
Qed.

Lemma foreign_validates (j : nat) (r : Z) :
  (j < 3)%nat -> 0 <= r <= 9999999 ->
  exists pin c,
    DNI.foreign j r = Ok pin /\ DNI.validate pin = Ok true /\
    List.length pin = 9%nat /\ nth_error pin 8 = Some c /\
    nth_error letters (Z.to_nat (numeric_value pin mod 23)) = Some [c].
Proof.
  intros Hj Hr.
  destruct (foreign_spec j r Hj) as (p & c & Hg & Hf & Hc); [lia|].
  destruct (foreign_choice j Hj) as (p' & Hg' & _ & _ & Hp & _).
  rewrite Hg in Hg'. injection Hg' as <-.
  exists ([p] ++ fixed_digits 7 r ++ [c]), c.
  pose proof (fixed_digits_length 7 r) as Hl.
  pose proof (fixed_digits_all 7 r) as Hd.
  pose proof (fixed_digits_val 7 r ltac:(lia)) as Hv.
  split; [|split; [|split; [|split]]].
  - exact Hf.
  - rewrite (validate_prefixed_body j), Hv, Hc, bind_Ok, str_eqb_refl
      by assumption.
    reflexivity.
  - cbn [app List.length]. rewrite length_app, Hl. reflexivity.
  - change ([p] ++ fixed_digits 7 r ++ [c])
      with ((p :: fixed_digits 7 r) ++ [c]).
    rewrite (nth_error_app_left _ [c] 8); [reflexivity|].
    cbn [List.length]. rewrite Hl. reflexivity.
  - cbn [numeric_value app]. rewrite Hp.
    rewrite (firstn_app_left _ _ 7 Hl), Hv. apply getitem_Ok, Hc.
Qed.

(** C9.  Whatever the random source returns (the position [k] chosen in
    [pin_type], the position [j] chosen in [foreign], the integer [r] of
    [randint(0, 9999999)]), the property [value] returns a code, that code
    passes [DNI.validate], it has nine characters, and its ninth character
    is the entry of the 23-letter alphabet at its numeric value modulo 23. *)
Theorem generated_code_passes_validate (k j : nat) (r : Z) :
  (k < 2)%nat -> (j < 3)%nat -> 0 <= r <= 9999999 ->
  exists pin c,
    DNI.value k j r = Ok (Some pin) /\
    DNI.validate pin = Ok true /\
    List.length pin = 9%nat /\
    nth_error pin 8 = Some c /\
    nth_error letters (Z.to_nat (numeric_value pin mod 23)) = Some [c].
Proof.
  intros Hk Hj Hr. unfold DNI.value.
  destruct k as [|[|k]]; [| |lia]; cbn [getitem nth_error bind].
  - destruct (national_validates r Hr) as (pin & c & Hn & Hv & Hrest).
    exists pin, c. rewrite Hn, bind_Ok, Hv, bind_Ok. auto.
  - destruct (foreign_validates j r Hj Hr) as (pin & c & Hn & Hv & Hrest).
    exists pin, c. rewrite Hn, bind_Ok, Hv, bind_Ok. auto.
Qed.

Lemma generated_code_passes_validate_witness :
  ((1 < 2)%nat /\ (2 < 3)%nat /\ 0 <= 55 <= 9999999) /\
  exists pin c,
    DNI.value 1 2 55 = Ok (Some pin) /\
    DNI.validate pin = Ok true /\
    List.length pin = 9%nat /\
    nth_error pin 8 = Some c /\
    nth_error letters (Z.to_nat (numeric_value pin mod 23)) = Some [c].
Proof.
  split; [lia|].
  apply (generated_code_passes_validate 1 2 55); lia.
Defined.

(** C5.  [national] draws its body with [random.randint(0, 9999999)], seven
    digits, and pads it to eight: for every value the draw can take, the
    code begins with the digit 0.  The valid code 12345678Z, whose body
    lies in [0, 99999999], is therefore never produced. *)
Theorem national_body_begins_with_zero (r : Z) :
  0 <= r <= 9999999 ->
  (exists rest, DNI.national r = Ok ("0"%char :: rest)) /\
  DNI.national r <> Ok (py "12345678Z") /\
  DNI.validate (py "12345678Z") = Ok true.
Proof.
  intros Hr. destruct (national_spec r) as (c & Hn & _); [lia|].
  rewrite (fixed_digits_lead 7 r) in Hn by lia.
  rewrite Hn. repeat split.
  - eexists; reflexivity.
  - discriminate.
Qed.

Lemma national_body_begins_with_zero_witness :
  0 <= 9999999 <= 9999999 /\
  (exists rest, DNI.national 9999999 = Ok ("0"%char :: rest)) /\
  DNI.national 9999999 <> Ok (py "12345678Z") /\
  DNI.validate (py "12345678Z") = Ok true.
Proof.
  split; [lia|]. apply (national_body_begins_with_zero 9999999); lia.
Defined.

(** C4, as the code has it.  Whenever the length of the input differs from
    9, [DNI.validate] raises [InvalidPinError]. *)
Theorem validate_wrong_length_raises (pin : str) :
  List.length pin <> 9%nat -> DNI.validate pin = Raise InvalidPinError.
Proof.
  intros H. unfold DNI.validate.
  apply Nat.eqb_neq in H. rewrite H. reflexivity.
Qed.

Lemma validate_wrong_length_raises_witness :
  List.length (py "1234") <> 9%nat /\
  DNI.validate (py "1234") = Raise InvalidPinError.
Proof.
  split; [simpl; lia|].
  apply (validate_wrong_length_raises (py "1234")). simpl; lia.
Defined.

(** C4, as stated, fails: on the four-character input 1234, whose length
    differs from 9, [DNI.validate] does not return [False]; the exception
    [InvalidPinError] propagates. *)
Lemma validate_short_input_not_false :
  List.length (py "1234") <> 9%nat /\
  DNI.validate (py "1234") <> Ok false /\
  DNI.validate (py "1234") = Raise InvalidPinError.
Proof. repeat split; vm_compute; discriminate. Qed.

End DNIFacts.

(** ** Bank account numbers *)

Module BankFacts.
Import Py Ref PyFacts bankaccount.

(** *** The registry *)

Lemma BANKS_keys_wellformed :
  forallb (fun k => all_digits k && Nat.eqb (List.length k) 4) (map fst BANKS)
  = true.
Proof. vm_compute. reflexivity. Qed.

Lemma in_BANKS_digits (bank : str) :
  in_BANKS bank = true -> all_digits bank = true /\ List.length bank = 4%nat.
Proof.
  unfold in_BANKS, contains. intros H.
  apply existsb_exists in H as (k & Hin & Hk).
  apply str_eqb_eq in Hk. subst k.
  pose proof BANKS_keys_wellformed as Hw.
  rewrite forallb_forall in Hw. specialize (Hw bank Hin).
  apply andb_true_iff in Hw as [Hd Hl]. apply Nat.eqb_eq in Hl. auto.
Qed.

(** *** Which exceptions the helpers raise *)

Lemma index_raises (l : list str) (x : str) (e : exn) :
  index l x = Raise e -> e = ValueError.
Proof.
  induction l as [|y l IH]; simpl; [congruence|].
  destruct (str_eqb y x); [discriminate|].
  destruct (index l x); simpl; [discriminate|]. intros [= <-]. auto.
Qed.

Lemma int_raises (s : str) (e : exn) : int s = Raise e -> e = ValueError.
Proof.
  unfold int. destruct (split_sign (lstrip s)) as [sign u].
  destruct (span_digits (lstrip u)) as [[|d ds] rest]; [congruence|].
  destruct (forallb isspace rest); congruence.
Qed.

Lemma substitute_letters_raises (alphabet_seq : list str) (s acc : str) (e : exn) :
  IBAN.substitute_letters alphabet_seq s acc = Raise e -> e = ValueError.
Proof.
  revert acc; induction s as [|c s IH]; intros acc; simpl; [discriminate|].
  destruct (isalpha c).
  - destruct (index alphabet_seq [c]) eqn:E; simpl.
    + apply IH.
    + intros [= <-]. apply (index_raises _ _ _ E).
  - simpl. apply IH.
Qed.

Lemma calc_check_digit_raises (number : str) (e : exn) :
  IBAN._calc_check_digit number = Raise e -> e = ValueError.
Proof.
  unfold IBAN._calc_check_digit.
  destruct (IBAN.substitute_letters _ _ _) as [n|e'] eqn:E; simpl.
  - destruct (int n) eqn:E'; simpl; [discriminate|].
    intros [= <-]. apply (int_raises _ _ E').
  - intros [= <-]. apply (substitute_letters_raises _ _ _ _ E).
Qed.

(** *** The two BBAN check digits *)

Lemma eleven_complement_range (multi_sum : Z) :
  0 <= eleven_complement multi_sum < 10.
Proof.
  unfold eleven_complement.
  pose proof (Z.mod_pos_bound multi_sum 11 ltac:(lia)).
  destruct (Z.eqb_spec (11 - multi_sum mod 11) 10); [lia|].
  destruct (Z.eqb_spec (11 - multi_sum mod 11) 11); lia.
Qed.

Lemma first_check_digit_eq (bank branch : str) (ds : list Z) :
  map_int (bank ++ branch) = Ok ds ->
  BBAN._first_check_digit bank branch
  = Ok (str_ (eleven_complement (weighted_sum ds BBAN.first_weights))).
Proof.
  intros H. unfold BBAN._first_check_digit. rewrite H, bind_Ok.
  cbv zeta. rewrite sum_zip_mul. reflexivity.
Qed.

Lemma second_check_digit_eq (account : str) (ds : list Z) :
  map_int account = Ok ds ->
  BBAN._second_check_digit account
  = Ok (str_ (eleven_complement (weighted_sum ds BBAN.second_weights))).
Proof.
  intros H. unfold BBAN._second_check_digit. rewrite H, bind_Ok.
  cbv zeta. rewrite sum_zip_mul. reflexivity.
Qed.

(** C7.  For both check-digit functions, on every input whose characters
    convert to the digits [ds]: when the weighted sum of [ds] is 0 modulo 11
    the digit returned is the string 0, and when it is 1 modulo 11 the digit
    returned is the string 1. *)
Theorem check_digit_edge_remainders
  (bank branch account : str) (ds1 ds2 : list Z) :
  map_int (bank ++ branch) = Ok ds1 ->
  map_int account = Ok ds2 ->
  (weighted_sum ds1 [4; 8; 5; 10; 9; 7; 3; 6] mod 11 = 0 ->
   BBAN._first_check_digit bank branch = Ok (py "0")) /\
  (weighted_sum ds1 [4; 8; 5; 10; 9; 7; 3; 6] mod 11 = 1 ->
   BBAN._first_check_digit bank branch = Ok (py "1")) /\
  (weighted_sum ds2 [1; 2; 4; 8; 5; 10; 9; 7; 3; 6] mod 11 = 0 ->
   BBAN._second_check_digit account = Ok (py "0")) /\
  (weighted_sum ds2 [1; 2; 4; 8; 5; 10; 9; 7; 3; 6] mod 11 = 1 ->
   BBAN._second_check_digit account = Ok (py "1")).
Proof.
  intros H1 H2.
  rewrite (first_check_digit_eq _ _ _ H1), (second_check_digit_eq _ _ H2).
  unfold eleven_complement, BBAN.first_weights, BBAN.second_weights.
  repeat split; intros ->; reflexivity.
Qed.

Lemma check_digit_edge_remainders_witness :
  (BBAN._first_check_digit (py "0000") (py "0000") = Ok (py "0") /\
   BBAN._second_check_digit (py "1000000000") = Ok (py "1")) /\
  (BBAN._first_check_digit (py "3000") (py "0000") = Ok (py "1") /\
   BBAN._second_check_digit (py "0000000000") = Ok (py "0")).
Proof.
  split.
  - destruct (check_digit_edge_remainders
                (py "0000") (py "0000") (py "1000000000")
                [0; 0; 0; 0; 0; 0; 0; 0] [1; 0; 0; 0; 0; 0; 0; 0; 0; 0]
                eq_refl eq_refl) as (A0 & _ & _ & B1).
    split; [apply A0 | apply B1]; reflexivity.
  - destruct (check_digit_edge_remainders
                (py "3000") (py "0000") (py "0000000000")
                [3; 0; 0; 0; 0; 0; 0; 0] [0; 0; 0; 0; 0; 0; 0; 0; 0; 0]
                eq_refl eq_refl) as (_ & A1 & B0 & _).
    split; [apply A1 | apply B0]; reflexivity.
Defined.

(** *** The IBAN check digit *)

Lemma slice_0_2_nth {A : Type} (a b : list A) :
  nth_error a 0 = nth_error b 0 -> nth_error a 1 = nth_error b 1 ->
  slice a 0 2 = slice b 0 2.
Proof.
  unfold slice.
  destruct a as [|a0 [|a1 a]], b as [|b0 [|b1 b]]; simpl;
    intros H0 H1; congruence.
Qed.

Lemma slice_4_8_nth {A : Type} (a b : list A) :
  (forall i, In i [4; 5; 6; 7]%nat -> nth_error a i = nth_error b i) ->
  slice a 4 8 = slice b 4 8.
Proof.
  intros H.
  pose proof (H 4%nat ltac:(simpl; auto)) as H4.
  pose proof (H 5%nat ltac:(simpl; auto)) as H5.
  pose proof (H 6%nat ltac:(simpl; auto)) as H6.
  pose proof (H 7%nat ltac:(simpl; auto)) as H7.
  clear H. unfold slice.
  destruct a as [|a0 [|a1 [|a2 [|a3 [|a4 [|a5 [|a6 [|a7 a]]]]]]]];
    destruct b as [|b0 [|b1 [|b2 [|b3 [|b4 [|b5 [|b6 [|b7 b]]]]]]]];
    simpl in *; congruence.
Qed.

(** C10.  Two 24-character inputs that carry the same characters at
    positions 0, 1 (the country code) and 4 to 7 (the bank code) get the
    same outcome from [_calc_check_digit], the same two digits or the same
    exception: the branch code, the BBAN check digits and the account number
    do not enter the computation. *)
Theorem calc_check_digit_reads_country_and_bank_only (a b : str) :
  List.length a = 24%nat -> List.length b = 24%nat ->
  (forall i, In i [0; 1; 4; 5; 6; 7]%nat -> nth_error a i = nth_error b i) ->
  IBAN._calc_check_digit a = IBAN._calc_check_digit b.
Proof.
  intros _ _ H. unfold IBAN._calc_check_digit.
  rewrite (slice_0_2_nth a b), (slice_4_8_nth a b); try reflexivity.
  - intros i Hi. apply H. simpl in *. tauto.
  - apply H; simpl; auto.
  - apply H; simpl; auto.
Qed.

Lemma calc_check_digit_reads_country_and_bank_only_witness :
  IBAN._calc_check_digit (py "ES0021000418450200051332")
  = IBAN._calc_check_digit (py "ES9921009999999999999999").
Proof.
  apply calc_check_digit_reads_country_and_bank_only;
    [reflexivity | reflexivity |].
  intros i Hi. simpl in Hi.
  destruct Hi as [<-|[<-|[<-|[<-|[<-|[<-|[]]]]]]]; reflexivity.
Defined.

(** C1.  On the candidate ES00 2100 0418 4502 0005 1332 of the module's
    docstring (whose IBAN is ES91 2100 0418 4502 0005 1332), the ISO rule
    over the whole BBAN gives 91, and [_calc_check_digit], which keeps only
    [number[4:8]], gives 30; changing the account number changes the ISO
    value and leaves the computed one unchanged; and [IBAN.validate] turns
    the docstring's own IBAN down. *)
Theorem calc_check_digit_is_not_iso_mod97 :
  List.length (py "ES0021000418450200051332") = 24%nat /\
  iso_mod97_check_digit (py "ES0021000418450200051332") = Some (py "91") /\
  IBAN._calc_check_digit (py "ES0021000418450200051332") = Ok (py "30") /\
  iso_mod97_check_digit (py "ES0021000418450200059999") = Some (py "46") /\
  IBAN._calc_check_digit (py "ES0021000418450200059999") = Ok (py "30") /\
  IBAN.validate (py "ES9121000418450200051332") = Raise IBANInvalidCheckDigit.
Proof. repeat split; vm_compute; reflexivity. Qed.

(** C8, as the code has it.  On a 24-character input [IBAN.validate] fails
    with [IBANInvalidCountry] exactly when the upper-cased first two
    characters differ from ES. *)
Theorem validate_country_error_iff (number : str) :
  List.length number = 24%nat ->
  IBAN.validate number = Raise IBANInvalidCountry <->
  upper (slice number 0 2) <> py "ES".
Proof.
  intros Hl. unfold IBAN.validate. rewrite Hl. cbn [Nat.eqb negb].
  destruct (str_eqb (upper (slice number 0 2)) (py "ES")) eqn:E; cbn [negb].
  - apply str_eqb_eq in E. split; [|congruence].
    destruct (IBAN._calc_check_digit number) as [d|e] eqn:Hc; simpl.
    + destruct (str_eqb (slice number 2 4) d); simpl; [|discriminate].
      destruct (in_BANKS (slice number 4 8)); discriminate.
    + intros [= ->]. apply calc_check_digit_raises in Hc. discriminate.
  - apply str_eqb_neq in E. split; [auto | reflexivity].
Qed.

Lemma validate_country_error_iff_witness :
  List.length (py "FR0614650000990000000000") = 24%nat /\
  (IBAN.validate (py "FR0614650000990000000000") = Raise IBANInvalidCountry <->
   upper (slice (py "FR0614650000990000000000") 0 2) <> py "ES").
Proof.
  split; [reflexivity|].
  apply (validate_country_error_iff (py "FR0614650000990000000000")).
  reflexivity.
Defined.

(** C8, as stated, fails: the 24-character input es06 1465 0000 5500 0000
    0000 does not begin with ES exactly, yet [IBAN.validate] does not fail
    with the country error; the lower-case letters pass the country test
    and [ValueError] escapes from the search in [alphabet_seq]. *)
Lemma validate_lowercase_country_no_country_error :
  List.length (py "es0614650000550000000000") = 24%nat /\
  slice (py "es0614650000550000000000") 0 2 <> py "ES" /\
  IBAN.validate (py "es0614650000550000000000") <> Raise IBANInvalidCountry /\
  IBAN.validate (py "es0614650000550000000000") = Raise ValueError.
Proof. repeat split; vm_compute; discriminate. Qed.

(** *** [BBAN.validate] *)

Lemma first_check_digit_digits (bank branch : str) :
  all_digits (bank ++ branch) = true ->
  exists d, BBAN._first_check_digit bank branch = Ok [d] /\ isdigit d = true.
Proof.
  intros H. rewrite (first_check_digit_eq _ _ _ (map_int_digits _ H)).
  pose proof (eleven_complement_range
                (weighted_sum (map digit_val (bank ++ branch))
                   BBAN.first_weights)) as Hr.
  rewrite (str_digit _ Hr). eexists; split; [reflexivity|].
  apply digit_chr_isdigit, Hr.
Qed.

Lemma second_check_digit_digits (account : str) :
  all_digits account = true ->
  exists d, BBAN._second_check_digit account = Ok [d] /\ isdigit d = true.
Proof.
  intros H. rewrite (second_check_digit_eq _ _ (map_int_digits _ H)).
  pose proof (eleven_complement_range
                (weighted_sum (map digit_val account) BBAN.second_weights))
    as Hr.
  rewrite (str_digit _ Hr). eexists; split; [reflexivity|].
  apply digit_chr_isdigit, Hr.
Qed.

Lemma first_check_digit_nondigits (bank branch : str) :
  all_digits (bank ++ branch) = false ->
  BBAN._first_check_digit bank branch = Raise ValueError.
Proof.
  intros H. unfold BBAN._first_check_digit.
  rewrite (map_int_other _ H). reflexivity.
Qed.

Lemma second_check_digit_nondigits (account : str) :
  all_digits account = false ->
  BBAN._second_check_digit account = Raise ValueError.
Proof.
  intros H. unfold BBAN._second_check_digit.
  rewrite (map_int_other _ H). reflexivity.
Qed.

Lemma chr_str_eqb (c d : ascii) : str_eqb [c] [d] = true <-> Some c = Some d.
Proof. rewrite str_eqb_eq. split; congruence. Qed.

(** The body of [BBAN.validate] once the length test has passed. *)
Lemma BBAN_validate_length_20 (number : str) :
  List.length number = 20%nat ->
  exists c8 c9,
    nth_error number 8 = Some c8 /\ nth_error number 9 = Some c9 /\
    BBAN.validate number =
    (if negb (in_BANKS (slice number 0 4)) then Raise BBANInvalidBankCode
     else
       d1 <- BBAN._first_check_digit (slice number 0 4) (slice number 4 8) ;;
       if negb (str_eqb [c8] d1) then Raise BBANInvalidBankBranchCheckDigit
       else
         d2 <- BBAN._second_check_digit (slice_from number 10) ;;
         if negb (str_eqb [c9] d2) then Raise BBANInvalidAccountCheckDigit
         else Ok number).
Proof.
  intros Hl.
  destruct (nth_error number 8) as [c8|] eqn:H8;
    [|apply nth_error_None in H8; lia].
  destruct (nth_error number 9) as [c9|] eqn:H9;
    [|apply nth_error_None in H9; lia].
  exists c8, c9. repeat split.
  unfold BBAN.validate, getitem. rewrite Hl, H8, H9. reflexivity.
Qed.

Lemma BBAN_validate_branch_mismatch (number : str) (d1 : ascii) :
  List.length number = 20%nat ->
  in_BANKS (slice number 0 4) = true ->
  BBAN._first_check_digit (slice number 0 4) (slice number 4 8) = Ok [d1] ->
  nth_error number 8 <> Some d1 ->
  BBAN.validate number = Raise BBANInvalidBankBranchCheckDigit.
Proof.
  intros Hl Hb H1 Hne.
  destruct (BBAN_validate_length_20 number Hl) as (c8 & c9 & H8 & _ & ->).
  rewrite Hb, H1, bind_Ok. cbn [negb].
  destruct (str_eqb [c8] [d1]) eqn:E; [|reflexivity].
  apply chr_str_eqb in E. congruence.
Qed.

Lemma BBAN_validate_account (number : str) (d1 d2 : ascii) :
  List.length number = 20%nat ->
  in_BANKS (slice number 0 4) = true ->
  BBAN._first_check_digit (slice number 0 4) (slice number 4 8) = Ok [d1] ->
  nth_error number 8 = Some d1 ->
  BBAN._second_check_digit (slice_from number 10) = Ok [d2] ->
  (nth_error number 9 <> Some d2 ->
   BBAN.validate number = Raise BBANInvalidAccountCheckDigit) /\
  (nth_error number 9 = Some d2 -> BBAN.validate number = Ok number).
Proof.
  intros Hl Hb H1 He1 H2.
  destruct (BBAN_validate_length_20 number Hl) as (c8 & c9 & H8 & H9 & ->).
  rewrite Hb, H1, bind_Ok. cbn [negb].
  assert (E1 : str_eqb [c8] [d1] = true) by (apply chr_str_eqb; congruence).
  rewrite E1, H2, bind_Ok. cbn [negb].
  destruct (str_eqb [c9] [d2]) eqn:E2; cbn [negb].
  - apply chr_str_eqb in E2. split; [congruence | reflexivity].
  - split; [reflexivity|].
    intros E. rewrite H9 in E. apply chr_str_eqb in E. congruence.
Qed.

Lemma BBAN_validate_account_nondigits (number : str) (d1 : ascii) :
  List.length number = 20%nat ->
  in_BANKS (slice number 0 4) = true ->
  BBAN._first_check_digit (slice number 0 4) (slice number 4 8) = Ok [d1] ->
  nth_error number 8 = Some d1 ->
  all_digits (slice_from number 10) = false ->
  BBAN.validate number = Raise ValueError.
Proof.
  intros Hl Hb H1 He1 Ha.
  destruct (BBAN_validate_length_20 number Hl) as (c8 & c9 & H8 & H9 & ->).
  rewrite Hb, H1, bind_Ok. cbn [negb].
  assert (E1 : str_eqb [c8] [d1] = true) by (apply chr_str_eqb; congruence).
  rewrite E1, (second_check_digit_nondigits _ Ha). reflexivity.
Qed.

(** C6, as the code has it.  [BBAN.validate] raises the length error unless
    the input has 20 characters; otherwise the unknown-bank error unless
    [number[0:4]] is a key of [BANKS]; otherwise, with a branch made of
    digits, it recomputes the first check digit and raises the branch error
    when [number[8]] differs from it; otherwise, with an account made of
    digits, it recomputes the second check digit and raises the account
    error when [number[9]] differs from it; otherwise it returns the input.
    A character that is not a digit in the branch, or in the account once
    the first digit has matched, makes the recomputation raise
    [ValueError]. *)
Theorem BBAN_validate_order (number : str) :
  (List.length number <> 20%nat ->
   BBAN.validate number = Raise BBANInvalidLength) /\
  (List.length number = 20%nat ->
   in_BANKS (slice number 0 4) = false ->
   BBAN.validate number = Raise BBANInvalidBankCode) /\
  (List.length number = 20%nat ->
   in_BANKS (slice number 0 4) = true ->
   all_digits (slice number 4 8) = false ->
   BBAN.validate number = Raise ValueError) /\
  (List.length number = 20%nat ->
   in_BANKS (slice number 0 4) = true ->
   all_digits (slice number 4 8) = true ->
   exists d1,
     BBAN._first_check_digit (slice number 0 4) (slice number 4 8) = Ok [d1] /\
     (nth_error number 8 <> Some d1 ->
      BBAN.validate number = Raise BBANInvalidBankBranchCheckDigit) /\
     (nth_error number 8 = Some d1 ->
      all_digits (slice_from number 10) = false ->
      BBAN.validate number = Raise ValueError) /\
     (nth_error number 8 = Some d1 ->
      all_digits (slice_from number 10) = true ->
      exists d2,
        BBAN._second_check_digit (slice_from number 10) = Ok [d2] /\
        (nth_error number 9 <> Some d2 ->
         BBAN.validate number = Raise BBANInvalidAccountCheckDigit) /\
        (nth_error number 9 = Some d2 -> BBAN.validate number = Ok number))).
Proof.
  split; [|split; [|split]].
  - intros H. unfold BBAN.validate. apply Nat.eqb_neq in H. rewrite H.
    reflexivity.
  - intros Hl Hb.
    destruct (BBAN_validate_length_20 number Hl) as (c8 & c9 & _ & _ & ->).
    rewrite Hb. reflexivity.
  - intros Hl Hb Hd.
    destruct (BBAN_validate_length_20 number Hl) as (c8 & c9 & _ & _ & ->).
    rewrite Hb, first_check_digit_nondigits; [reflexivity|].
    rewrite all_digits_app, Hd. apply andb_false_r.
  - intros Hl Hb Hd.
    destruct (in_BANKS_digits _ Hb) as [Hbd _].
    destruct (first_check_digit_digits (slice number 0 4) (slice number 4 8))
      as (d1 & H1 & _); [rewrite all_digits_app, Hbd, Hd; reflexivity|].
    exists d1. split; [exact H1|]. split; [|split].
    + apply BBAN_validate_branch_mismatch; assumption.
    + apply BBAN_validate_account_nondigits; assumption.
    + intros He1 Ha.
      destruct (second_check_digit_digits _ Ha) as (d2 & H2 & _).
      exists d2. split; [exact H2|].
      apply (BBAN_validate_account number d1 d2); assumption.
Qed.

Lemma BBAN_validate_order_witness :
  BBAN.validate (py "2100041845020005133") = Raise BBANInvalidLength /\
  BBAN.validate (py "99990418450200051332") = Raise BBANInvalidBankCode /\
  BBAN.validate (py "2100ABCD450200051332") = Raise ValueError /\
  BBAN.validate (py "21000418950200051332")
  = Raise BBANInvalidBankBranchCheckDigit /\
  BBAN.validate (py "21000418490200051332")
  = Raise BBANInvalidAccountCheckDigit /\
  BBAN.validate (py "21000418450200051332") = Ok (py "21000418450200051332").
Proof.
  split; [|split; [|split; [|split; [|split]]]].
  - apply (BBAN_validate_order (py "2100041845020005133")). simpl; lia.
  - apply (BBAN_validate_order (py "99990418450200051332")); reflexivity.
  - apply (BBAN_validate_order (py "2100ABCD450200051332")); reflexivity.
  - destruct (BBAN_validate_order (py "21000418950200051332"))
      as (_ & _ & _ & H).
    destruct (H eq_refl eq_refl eq_refl) as (d1 & H1 & Hne & _).
    apply Hne. vm_compute in H1. injection H1 as <-. vm_compute. discriminate.
  - destruct (BBAN_validate_order (py "21000418490200051332"))
      as (_ & _ & _ & H).
    destruct (H eq_refl eq_refl eq_refl) as (d1 & H1 & _ & _ & Hacc).
    vm_compute in H1. injection H1 as <-.
    destruct (Hacc eq_refl eq_refl) as (d2 & H2 & Hne & _).
    apply Hne. vm_compute in H2. injection H2 as <-. vm_compute. discriminate.
  - destruct (BBAN_validate_order (py "21000418450200051332"))
      as (_ & _ & _ & H).
    destruct (H eq_refl eq_refl eq_refl) as (d1 & H1 & _ & _ & Hacc).
    vm_compute in H1. injection H1 as <-.
    destruct (Hacc eq_refl eq_refl) as (d2 & H2 & _ & Hok).
    apply Hok. vm_compute in H2. injection H2 as <-. reflexivity.
Defined.

(** C6, as stated, fails: the input 1465 ABCD 00 0000000000 has 20
    characters and a registered bank code, and [BBAN.validate] neither
    raises one of the two check-digit errors nor returns; [int] raises
    [ValueError] on the letter A while the first digit is recomputed. *)
Lemma BBAN_validate_letters_in_branch :
  List.length (py "1465ABCD000000000000") = 20%nat /\
  in_BANKS (slice (py "1465ABCD000000000000") 0 4) = true /\
  BBAN.validate (py "1465ABCD000000000000")
  <> Raise BBANInvalidBankBranchCheckDigit /\
  BBAN.validate (py "1465ABCD000000000000")
  <> Raise BBANInvalidAccountCheckDigit /\
  BBAN.validate (py "1465ABCD000000000000") <> Ok (py "1465ABCD000000000000") /\
  BBAN.validate (py "1465ABCD000000000000") = Raise ValueError.
Proof. repeat split; vm_compute; discriminate. Qed.

(** *** [IBAN.validate] and the constructors *)

Lemma IBAN_validate_Ok (number v : str) :
  IBAN.validate number = Ok v ->
  v = number /\ List.length number = 24%nat /\
  in_BANKS (slice number 4 8) = true.
Proof.
  unfold IBAN.validate.
  destruct (Nat.eqb (List.length number) 24) eqn:Hl; cbn [negb];
    [|discriminate].
  destruct (str_eqb (upper (slice number 0 2)) (py "ES")); cbn [negb];
    [|discriminate].
  destruct (IBAN._calc_check_digit number) as [d|e]; simpl; [|discriminate].
  destruct (str_eqb (slice number 2 4) d); simpl; [|discriminate].
  destruct (in_BANKS (slice number 4 8)); simpl; [|discriminate].
  intros [= <-]. apply Nat.eqb_eq in Hl. auto.
Qed.

Lemma BBAN_init_raises (number : str) (e : exn) :
  BBAN.validate number = Raise e -> BBAN.__init__ number = Raise e.
Proof. intros H. unfold BBAN.__init__. rewrite H. reflexivity. Qed.

(** C3, as the code has it.  A failure of [IBAN.validate] is a failure of
    the constructor [IBAN.__init__]; and when [IBAN.validate] accepts the
    input, the constructor hands the trailing 20 characters to [BBAN], so
    that every failure of [BBAN.validate] on them propagates: a wrong first
    BBAN check digit raises the branch error, a wrong second one the account
    error. *)
Theorem IBAN_init_propagates_BBAN_failures (number : str) :
  (forall e, IBAN.validate number = Raise e -> IBAN.__init__ number = Raise e) /\
  (IBAN.validate number = Ok number ->
   (forall e,
      BBAN.validate (slice_from number 4) = Raise e ->
      IBAN.__init__ number = Raise e) /\
   (forall d1,
      BBAN._first_check_digit (slice number 4 8) (slice number 8 12) = Ok [d1] ->
      nth_error number 12 <> Some d1 ->
      IBAN.__init__ number = Raise BBANInvalidBankBranchCheckDigit) /\
   (forall d1 d2,
      BBAN._first_check_digit (slice number 4 8) (slice number 8 12) = Ok [d1] ->
      nth_error number 12 = Some d1 ->
      BBAN._second_check_digit (slice_from number 14) = Ok [d2] ->
      nth_error number 13 <> Some d2 ->
      IBAN.__init__ number = Raise BBANInvalidAccountCheckDigit)).
Proof.
  split.
  { intros e H. unfold IBAN.__init__. rewrite H. reflexivity. }
  intros Hv.
  destruct (IBAN_validate_Ok _ _ Hv) as (_ & Hl & Hb).
  assert (Hprop : forall e,
            BBAN.validate (slice_from number 4) = Raise e ->
            IBAN.__init__ number = Raise e).
  { intros e H. unfold IBAN.__init__.
    rewrite Hv, bind_Ok, (BBAN_init_raises _ _ H). reflexivity. }
  do 24 (destruct number as [|? number]; [discriminate Hl|]).
  destruct number; [|discriminate Hl].
  split; [exact Hprop|]. split.
  - intros d1 H1 Hne. apply Hprop.
    apply (BBAN_validate_branch_mismatch _ d1); [reflexivity | exact Hb | exact H1 | exact Hne].
  - intros d1 d2 H1 He1 H2 Hne. apply Hprop.
    apply (BBAN_validate_account _ d1 d2); [reflexivity | exact Hb | exact H1 | exact He1 | exact H2 | exact Hne].
Qed.

Lemma IBAN_init_propagates_BBAN_failures_witness :
  IBAN.validate (py "ES0614650000990000000000")
  = Ok (py "ES0614650000990000000000") /\
  IBAN.__init__ (py "ES0614650000990000000000")
  = Raise BBANInvalidBankBranchCheckDigit /\
  IBAN.validate (py "ES0614650000590000000000")
  = Ok (py "ES0614650000590000000000") /\
  IBAN.__init__ (py "ES0614650000590000000000")
  = Raise BBANInvalidAccountCheckDigit.
Proof.
  split; [reflexivity|]. split; [|split; [reflexivity|]].
  - destruct (IBAN_init_propagates_BBAN_failures
                (py "ES0614650000990000000000")) as (_ & H).
    destruct (H eq_refl) as (_ & Hb & _).
    apply (Hb "5"%char); [reflexivity | vm_compute; discriminate].
  - destruct (IBAN_init_propagates_BBAN_failures
                (py "ES0614650000590000000000")) as (_ & H).
    destruct (H eq_refl) as (_ & _ & Ha).
    apply (Ha "5"%char "0"%char);
      [reflexivity | reflexivity | reflexivity | vm_compute; discriminate].
Defined.

(** C3, as stated, fails: ES06 1465 0000 99 0000000000 has the right
    length, country, IBAN check digit and bank code, its trailing 20
    characters are turned down by [BBAN.validate] (the first check digit
    should be 5), and [IBAN.validate] accepts it all the same. *)
Lemma IBAN_validate_accepts_wrong_BBAN_digits :
  List.length (py "ES0614650000990000000000") = 24%nat /\
  BBAN.validate (slice_from (py "ES0614650000990000000000") 4)
  = Raise BBANInvalidBankBranchCheckDigit /\
  IBAN.validate (py "ES0614650000990000000000")
  = Ok (py "ES0614650000990000000000").
Proof. repeat split. Qed.

(** *** Generation *)

(** C2.  [BBAN.generate] called with an account never returns: whatever
    the bank, the branch and the account, the [return] statement reads the
    local [first_cd], assigned only when no account is given, and
    [UnboundLocalError] propagates; [IBAN.generate] fails with it.  In
    particular this is so for the registered bank 1465, the branch 0000 and
    the account 0000000001. *)
Theorem generate_with_account_raises
  (bank branch account : str) (r : Z) :
  BBAN.generate bank branch (Some account) r = Raise UnboundLocalError /\
  IBAN.generate bank branch (Some account) r = Raise UnboundLocalError /\
  in_BANKS (py "1465") = true /\
  BBAN.generate (py "1465") (py "0000") (Some (py "0000000001")) r
  = Raise UnboundLocalError.
Proof. repeat split. Qed.

Lemma firstn_app_left_4 {A : Type} (s t : list A) :
  List.length s = 4%nat -> firstn 4 (s ++ t) = s.
Proof.
  intros H. destruct s as [|a0 [|a1 [|a2 [|a3 [|? ?]]]]]; try discriminate H.
  reflexivity.
Qed.

(** Without an account the generators do succeed, and what they build
    passes validation again; [r] ranges over what
    [random.randrange(9999999999)] returns. *)
Lemma BBAN_generate_random (bank branch : str) (r : Z) :
  in_BANKS bank = true ->
  List.length branch = 4%nat -> all_digits branch = true ->
  0 <= r < 9999999999 ->
  exists d1 d2,
    let account := fixed_digits 10 r in
    let self := {| BBAN.bank := bank; BBAN.branch := branch;
                   BBAN.account := account |} in
    let code := bank ++ branch ++ [d1] ++ [d2] ++ account in
    BBAN.generate bank branch None r = Ok self /\
    BBAN.number self = Ok code /\
    List.length code = 20%nat /\
    BBAN.validate code = Ok code /\
    BBAN.__init__ code = Ok self.
Proof.
  intros Hb Hl Hd Hr.
  destruct (in_BANKS_digits bank Hb) as [Hbd Hbl].
  destruct (first_check_digit_digits bank branch) as (d1 & H1 & _);
    [rewrite all_digits_app, Hbd, Hd; reflexivity|].
  pose proof (fixed_digits_all 10 r) as Had.
  pose proof (fixed_digits_length 10 r) as Hal.
  destruct (second_check_digit_digits _ Had) as (d2 & H2 & _).
  exists d1, d2. cbv zeta.
  set (account := fixed_digits 10 r) in *.
  destruct bank as [|b0 [|b1 [|b2 [|b3 [|? ?]]]]]; try discriminate Hbl.
  destruct branch as [|c0 [|c1 [|c2 [|c3 [|? ?]]]]]; try discriminate Hl.
  set (bank := [b0; b1; b2; b3]) in *.
  set (branch := [c0; c1; c2; c3]) in *.
  set (code := bank ++ branch ++ [d1] ++ [d2] ++ account).
  assert (Hcl : List.length code = 20%nat)
    by (unfold code, bank, branch; cbn [app List.length]; rewrite Hal;
        reflexivity).
  assert (Hv : BBAN.validate code = Ok code).
  { apply (BBAN_validate_account code d1 d2); try reflexivity; assumption. }
  assert (Hi : BBAN.__init__ code
               = Ok {| BBAN.bank := bank; BBAN.branch := branch;
                       BBAN.account := account |}).
  { unfold BBAN.__init__. rewrite Hv. reflexivity. }
  split; [|split; [|split; [|split]]]; try assumption.
  - unfold BBAN.generate.
    rewrite zfill_str_fixed by (simpl; lia).
    fold account. rewrite H1, bind_Ok, H2, !bind_Ok. cbn [load bind].
    exact Hi.
  - unfold BBAN.number, BBAN.check_digit. cbn [BBAN.bank BBAN.branch BBAN.account].
    rewrite H1, bind_Ok, H2, !bind_Ok. exact Hv.
Qed.

Lemma substitute_letters_digits (alphabet_seq : list str) (s t acc : str) :
  all_digits s = true ->
  IBAN.substitute_letters alphabet_seq (s ++ t) acc
  = IBAN.substitute_letters alphabet_seq t (acc ++ s).
Proof.
  revert acc; induction s as [|c s IH]; intros acc H.
  - rewrite app_nil_r. reflexivity.
  - simpl in H. apply andb_true_iff in H as [Hc Hs].
    cbn [app IBAN.substitute_letters].
    rewrite (isdigit_not_alpha c Hc), bind_Ok, (IH _ Hs), <- app_assoc.
    reflexivity.
Qed.

Lemma substitute_letters_ES00 (acc : str) :
  IBAN.substitute_letters ascii_uppercase (py "ES00") acc
  = Ok (acc ++ py "142800").
Proof.
  change (py "142800") with (py "14" ++ py "28" ++ py "0" ++ py "0").
  rewrite !app_assoc. reflexivity.
Qed.

(** The check digit of a Spanish candidate whose bank code is made of
    digits: only the bank code enters. *)
Lemma calc_check_digit_ES (number : str) :
  slice number 0 2 = py "ES" ->
  all_digits (slice number 4 8) = true ->
  IBAN._calc_check_digit number
  = Ok (fixed_digits 2
          (98 - digits_val (slice number 4 8 ++ py "142800") mod 97)).
Proof.
  intros Hc Hd. unfold IBAN._calc_check_digit. rewrite Hc.
  change (py "ES" ++ py "00") with (py "ES00").
  rewrite substitute_letters_digits, substitute_letters_ES00, bind_Ok
    by exact Hd.
  cbn [app]. rewrite int_digits, bind_Ok.
  - rewrite zfill_str_fixed; [reflexivity | lia |].
    pose proof (Z.mod_pos_bound
                  (digits_val (slice number 4 8 ++ py "142800")) 97
                  ltac:(lia)).
    change (10 ^ Z.of_nat 2) with 100. lia.
  - destruct (slice number 4 8); discriminate.
  - rewrite all_digits_app, Hd. reflexivity.
Qed.

Lemma IBAN_generate_random (bank branch : str) (r : Z) :
  in_BANKS bank = true ->
  List.length branch = 4%nat -> all_digits branch = true ->
  0 <= r < 9999999999 ->
  exists (b : BBAN.t) (cd bban : str),
    let self := {| IBAN.country := py "ES"; IBAN.bban := b |} in
    let code := py "ES" ++ cd ++ bban in
    BBAN.generate bank branch None r = Ok b /\
    BBAN.number b = Ok bban /\
    IBAN.generate bank branch None r = Ok self /\
    IBAN.number self = Ok code /\
    List.length code = 24%nat /\
    IBAN.validate code = Ok code /\
    IBAN.__init__ code = Ok self.
Proof.
  intros Hb Hl Hd Hr.
  destruct (BBAN_generate_random bank branch r Hb Hl Hd Hr)
    as (d1 & d2 & Hg & Hn & Hcl & Hv & Hi).
  cbv zeta in *.
  destruct (in_BANKS_digits bank Hb) as [Hbd Hbl].
  set (b := {| BBAN.bank := bank; BBAN.branch := branch;
               BBAN.account := fixed_digits 10 r |}) in *.
  set (bban := bank ++ branch ++ [d1] ++ [d2] ++ fixed_digits 10 r) in *.
  set (cd := fixed_digits 2 (98 - digits_val (bank ++ py "142800") mod 97)).
  assert (Hslice : forall c0 c1, slice (py "ES" ++ [c0; c1] ++ bban) 4 8 = bank).
  { intros c0 c1. unfold bban. cbn [py list_ascii_of_string app slice skipn Nat.sub].
    apply firstn_app_left_4. exact Hbl. }
  exists b, cd, bban. cbv zeta.
  assert (Hcd : forall c0 c1,
            IBAN._calc_check_digit (py "ES" ++ [c0; c1] ++ bban) = Ok cd).
  { intros c0 c1. rewrite calc_check_digit_ES; [| reflexivity |];
      rewrite Hslice; [reflexivity | exact Hbd]. }
  assert (Hcd2 : exists c0 c1, cd = [c0; c1]).
  { pose proof (fixed_digits_length 2
                  (98 - digits_val (bank ++ py "142800") mod 97)) as H.
    fold cd in H. destruct cd as [|c0 [|c1 [|? ?]]]; try discriminate H.
    exists c0, c1. reflexivity. }
  destruct Hcd2 as (c0 & c1 & Hcd2).
  set (code := py "ES" ++ cd ++ bban).
  assert (Hlen : List.length code = 24%nat).
  { unfold code. rewrite Hcd2. cbn [py list_ascii_of_string app List.length].
    rewrite Hcl. reflexivity. }
  assert (Hval : IBAN.validate code = Ok code).
  { unfold IBAN.validate. rewrite Hlen. cbn [Nat.eqb negb].
    unfold code at 1 2 3 4. rewrite Hcd2, Hcd, bind_Ok, Hslice, Hb.
    rewrite Hcd2.
    change (slice (py "ES" ++ [c0; c1] ++ bban) 0 2) with (py "ES").
    change (slice (py "ES" ++ [c0; c1] ++ bban) 2 4) with [c0; c1].
    rewrite !str_eqb_refl. reflexivity. }
  assert (Hinit : IBAN.__init__ code
                  = Ok {| IBAN.country := py "ES"; IBAN.bban := b |}).
  { unfold IBAN.__init__. rewrite Hval, bind_Ok.
    replace (slice_from code 4) with bban
      by (unfold code; rewrite Hcd2; reflexivity).
    rewrite Hi, bind_Ok. unfold code. rewrite Hcd2. reflexivity. }
  split; [exact Hg|]. split; [exact Hn|].
  split; [|split; [|split; [exact Hlen | split; [exact Hval | exact Hinit]]]].
  - unfold IBAN.generate. rewrite Hg, bind_Ok, Hn, bind_Ok.
    rewrite (Hcd "0"%char "0"%char
             : IBAN._calc_check_digit (py "ES" ++ py "00" ++ bban) = Ok cd),
      bind_Ok. exact Hinit.
  - unfold IBAN.number, IBAN.check_digit.
    cbn [IBAN.country IBAN.bban]. rewrite Hn, !bind_Ok.
    rewrite (Hcd "0"%char "0"%char
             : IBAN._calc_check_digit (py "ES" ++ py "00" ++ bban) = Ok cd),
      bind_Ok. exact Hval.
Qed.

End BankFacts.

(** ** Error detection of the check letter *)

Module DNIProps.
Import Py Ref PyFacts pin DNIFacts.

Lemma digits_val_app (pre t : str) :
  digits_val (pre ++ t)
  = digits_val pre * 10 ^ Z.of_nat (List.length t) + digits_val t.
Proof.
  unfold digits_val at 1. rewrite fold_left_app.
  fold (digits_val pre). apply digits_val_acc.
Qed.

(** Replacing one character moves the value by the difference of the two
    digits at the weight of that position. *)
Lemma digits_val_subst (pre post : str) (x y : ascii) :
  digits_val (pre ++ x :: post) - digits_val (pre ++ y :: post)
  = (digit_val x - digit_val y) * 10 ^ Z.of_nat (List.length post).
Proof.
  rewrite !digits_val_app, !digits_val_cons. cbn [List.length].
  ring.
Qed.

Lemma digit_val_inj (x y : ascii) :
  isdigit x = true -> isdigit y = true -> digit_val x = digit_val y -> x = y.
Proof.
  intros Hx Hy H. rewrite <- (digit_chr_val x Hx), <- (digit_chr_val y Hy), H.
  reflexivity.
Qed.

Lemma small_range (d : Z) :
  -9 <= d <= 9 -> d <> 0 ->
  d = -9 \/ d = -8 \/ d = -7 \/ d = -6 \/ d = -5 \/ d = -4 \/ d = -3 \/
  d = -2 \/ d = -1 \/ d = 1 \/ d = 2 \/ d = 3 \/ d = 4 \/ d = 5 \/ d = 6 \/
  d = 7 \/ d = 8 \/ d = 9.
Proof. lia. Qed.

Ltac small_cases H :=
  repeat (destruct H as [H|H]; [subst; vm_compute; discriminate|]);
  subst; vm_compute; discriminate.

(** 23 divides no non-zero digit difference at any of the eight weights. *)
Lemma shift_mod_23 (d : Z) (k : nat) :
  (k <= 7)%nat -> -9 <= d <= 9 -> d <> 0 ->
  (d * 10 ^ Z.of_nat k) mod 23 <> 0.
Proof.
  intros Hk Hd Hz. pose proof (small_range d Hd Hz) as H.
  destruct k as [|[|[|[|[|[|[|[|k]]]]]]]]; [| | | | | | | |lia];
    small_cases H.
Qed.

Lemma mod_neq_of_diff (a b n : Z) :
  0 < n -> (a - b) mod n <> 0 -> a mod n <> b mod n.
Proof.
  intros Hn H E. apply H.
  rewrite Zminus_mod, E, Z.sub_diag. apply Zmod_0_l.
Qed.

Lemma letters_index (i : nat) (l : str) :
  getitem letters i = Ok l -> index letters l = Ok i.
Proof.
  do 23 (destruct i as [|i]; [intros [= <-]; reflexivity|]).
  unfold getitem. simpl. destruct i; discriminate.
Qed.

Lemma letters_injective (i j : nat) (l : str) :
  getitem letters i = Ok l -> getitem letters j = Ok l -> i = j.
Proof.
  intros Hi Hj. apply letters_index in Hi, Hj. congruence.
Qed.

(** Two values that differ modulo 23 do not share a check letter. *)
Lemma letter_mismatch (n n' : Z) (c : ascii) :
  n mod 23 <> n' mod 23 ->
  (l <- getitem letters (Z.to_nat (n mod 23)) ;; Ok (str_eqb [c] l)) = Ok true ->
  (l <- getitem letters (Z.to_nat (n' mod 23)) ;; Ok (str_eqb [c] l)) = Ok false.
Proof.
  intros Hne H.
  destruct (letters_getitem (n mod 23)) as [a Ha];
    [apply Z.mod_pos_bound; lia|].
  destruct (letters_getitem (n' mod 23)) as [a' Ha'];
    [apply Z.mod_pos_bound; lia|].
  rewrite Ha, bind_Ok in H. rewrite Ha', bind_Ok.
  assert (Hca : str_eqb [c] [a] = true) by congruence.
  apply str_eqb_eq in Hca. injection Hca as ->.
  f_equal. apply str_eqb_neq. intros [= <-].
  pose proof (letters_injective _ _ _ Ha Ha') as E.
  pose proof (Z.mod_pos_bound n 23 ltac:(lia)).
  pose proof (Z.mod_pos_bound n' 23 ltac:(lia)).
  apply Hne. lia.
Qed.

Lemma all_digits_subst (pre post : str) (x y : ascii) :
  all_digits (pre ++ x :: post) = true -> isdigit y = true ->
  all_digits (pre ++ y :: post) = true /\ isdigit x = true /\
  (List.length post <= List.length (pre ++ x :: post) - 1)%nat /\
  List.length (pre ++ y :: post) = List.length (pre ++ x :: post).
Proof.
  rewrite !all_digits_app. cbn [all_digits forallb].
  rewrite !andb_true_iff. intros (Hp & Hx & Hq) Hy.
  rewrite !length_app. cbn [List.length]. repeat split; auto; lia.
Qed.

Lemma digit_shift_mod_23 (pre post : str) (x y : ascii) :
  isdigit x = true -> isdigit y = true -> x <> y ->
  (List.length post <= 7)%nat ->
  forall base : Z,
    (base + digits_val (pre ++ x :: post)) mod 23
    <> (base + digits_val (pre ++ y :: post)) mod 23.
Proof.
  intros Hx Hy Hne Hk base. apply mod_neq_of_diff; [lia|].
  replace (base + digits_val (pre ++ x :: post)
           - (base + digits_val (pre ++ y :: post)))
    with (digits_val (pre ++ x :: post) - digits_val (pre ++ y :: post))
    by ring.
  rewrite digits_val_subst.
  pose proof (digit_val_range x Hx). pose proof (digit_val_range y Hy).
  apply shift_mod_23; [exact Hk | lia |].
  intros E. apply Hne, digit_val_inj; auto. lia.
Qed.

(** [validate] on nine characters: everything but the last comparison
    depends on the first eight only. *)
Lemma validate_body_letter (body : str) :
  List.length body = 8%nat ->
  exists expected : result str,
    forall c, DNI.validate (body ++ [c])
              = (l <- expected ;; Ok (str_eqb [c] l)).
Proof.
  intros Hl.
  destruct body as [|b0 body]; [discriminate|].
  set (fixed := if contains pin.foreign [b0]
                then (i <- index pin.foreign [b0] ;;
                      Ok (replace_chr b0 (str_ (Z.of_nat i)) (b0 :: body)))
                else Ok (b0 :: body)).
  exists (p <- fixed ;; n <- int p ;;
          getitem letters (Z.to_nat (n mod 23))).
  intros c. unfold DNI.validate.
  rewrite length_app, Hl. cbn [List.length Nat.add Nat.eqb negb].
  unfold getitem at 1. rewrite (nth_error_app_left (b0 :: body) [c] 8 Hl).
  cbn [nth_error bind]. rewrite (slice_app_left (b0 :: body) [c] 8 Hl).
  unfold getitem at 1. cbn [nth_error bind]. fold fixed.
  destruct fixed as [q|e]; [|reflexivity]. cbn [bind].
  destruct (int q) as [n|e]; reflexivity.
Qed.

(** X1.  In a national code that [validate] accepts, replacing any one of
    the eight digits by a different digit gives a code that [validate]
    rejects. *)
Theorem validate_rejects_digit_substitution
  (pre post : str) (x y c : ascii) :
  List.length (pre ++ x :: post) = 8%nat ->
  all_digits (pre ++ x :: post) = true ->
  isdigit y = true -> x <> y ->
  DNI.validate ((pre ++ x :: post) ++ [c]) = Ok true ->
  DNI.validate ((pre ++ y :: post) ++ [c]) = Ok false.
Proof.
  intros Hl Hd Hy Hne H.
  destruct (all_digits_subst pre post x y Hd Hy) as (Hd' & Hx & Hk & Hl').
  rewrite validate_digits_body in H by assumption.
  rewrite validate_digits_body by (try assumption; lia).
  refine (letter_mismatch _ _ c _ H).
  apply (digit_shift_mod_23 pre post x y Hx Hy Hne ltac:(lia) 0).
Qed.

Lemma validate_rejects_digit_substitution_witness :
  DNI.validate (py "12345678Z") = Ok true /\
  DNI.validate (py "12349678Z") = Ok false.
Proof.
  split; [reflexivity|].
  apply (validate_rejects_digit_substitution
           (py "1234") (py "678") "5"%char "9"%char "Z"%char);
    try reflexivity.
  discriminate.
Defined.

(** X2.  In a foreign code (prefix X, Y or Z, seven digits, letter) that
    [validate] accepts, replacing any one of the seven digits by a
    different digit gives a code that [validate] rejects. *)
Theorem validate_rejects_foreign_digit_substitution
  (j : nat) (p : ascii) (pre post : str) (x y c : ascii) :
  getitem pin.foreign j = Ok [p] ->
  List.length (pre ++ x :: post) = 7%nat ->
  all_digits (pre ++ x :: post) = true ->
  isdigit y = true -> x <> y ->
  DNI.validate ([p] ++ (pre ++ x :: post) ++ [c]) = Ok true ->
  DNI.validate ([p] ++ (pre ++ y :: post) ++ [c]) = Ok false.
Proof.
  intros Hp Hl Hd Hy Hne H.
  destruct (all_digits_subst pre post x y Hd Hy) as (Hd' & Hx & Hk & Hl').
  rewrite (validate_prefixed_body j) in H by assumption.
  rewrite (validate_prefixed_body j) by (try assumption; lia).
  refine (letter_mismatch _ _ c _ H).
  apply (digit_shift_mod_23 pre post x y Hx Hy Hne ltac:(lia)).
Qed.

Lemma validate_rejects_foreign_digit_substitution_witness :
  DNI.validate (py "Y1234567X") = Ok true /\
  DNI.validate (py "Y1234067X") = Ok false.
Proof.
  split; [reflexivity|].
  apply (validate_rejects_foreign_digit_substitution
           1 "Y"%char (py "1234") (py "67") "5"%char "0"%char "X"%char);
    try reflexivity.
  discriminate.
Defined.

(** X3.  In a foreign code that [validate] accepts, replacing the prefix
    by another of the three prefixes gives a code that [validate]
    rejects. *)
Theorem validate_rejects_prefix_swap
  (j j' : nat) (p p' : ascii) (dni : str) (c : ascii) :
  getitem pin.foreign j = Ok [p] ->
  getitem pin.foreign j' = Ok [p'] ->
  p <> p' ->
  List.length dni = 7%nat -> all_digits dni = true ->
  DNI.validate ([p] ++ dni ++ [c]) = Ok true ->
  DNI.validate ([p'] ++ dni ++ [c]) = Ok false.
Proof.
  intros Hp Hp' Hne Hl Hd H.
  rewrite (validate_prefixed_body j) in H by assumption.
  rewrite (validate_prefixed_body j') by assumption.
  refine (letter_mismatch _ _ c _ H).
  assert (Hj : (j < 3)%nat /\ (j' < 3)%nat).
  { split; change 3%nat with (List.length pin.foreign);
      apply nth_error_Some; intros E; unfold getitem in *;
      [rewrite E in Hp | rewrite E in Hp']; discriminate. }
  assert (Hjj : j <> j') by (intros ->; congruence).
  apply mod_neq_of_diff; [lia|].
  replace (Z.of_nat j * 10 ^ 7 + digits_val dni
           - (Z.of_nat j' * 10 ^ 7 + digits_val dni))
    with ((Z.of_nat j - Z.of_nat j') * 10 ^ Z.of_nat 7)
    by (change (Z.of_nat 7) with 7; ring).
  apply shift_mod_23; lia.
Qed.

Lemma validate_rejects_prefix_swap_witness :
  DNI.validate (py "Y1234567X") = Ok true /\
  DNI.validate (py "Z1234567X") = Ok false.
Proof.
  split; [reflexivity|].
  apply (validate_rejects_prefix_swap
           1 2 "Y"%char "Z"%char (py "1234567") "X"%char);
    try reflexivity.
  discriminate.
Defined.

(** X4.  Whatever its first eight characters, a code that [validate]
    accepts is rejected, with [False] and no exception, once its ninth
    character is replaced by any other character. *)
Theorem validate_rejects_letter_substitution (body : str) (c c' : ascii) :
  c <> c' ->
  DNI.validate (body ++ [c]) = Ok true ->
  DNI.validate (body ++ [c']) = Ok false.
Proof.
  intros Hne H.
  assert (Hl : List.length body = 8%nat).
  { destruct (Nat.eq_dec (List.length body) 8) as [E|E]; [exact E|].
    unfold DNI.validate in H. rewrite length_app in H.
    cbn [List.length] in H.
    destruct (Nat.eqb_spec (List.length body + 1) 9) as [E'|_];
      [lia | discriminate]. }
  destruct (validate_body_letter body Hl) as (expected & Hv).
  rewrite Hv in *. destruct expected as [l|e]; [|discriminate].
  rewrite bind_Ok in *.
  assert (Hc : str_eqb [c] l = true) by congruence.
  apply str_eqb_eq in Hc. subst l. f_equal.
  apply str_eqb_neq. congruence.
Qed.

Lemma validate_rejects_letter_substitution_witness :
  DNI.validate (py "12345678Z") = Ok true /\
  DNI.validate (py "12345678A") = Ok false.
Proof.
  split; [reflexivity|].
  apply (validate_rejects_letter_substitution (py "12345678") "Z"%char "A"%char);
    [discriminate | reflexivity].
Defined.

(** X5.  [validate] substitutes the prefix letter wherever it occurs in the
    first eight characters, not only in front: a code whose body repeats
    its prefix letter among the digits gets the verdict of the all-digit
    code in which every such letter is written as the digit 0, 1 or 2 it
    stands for.  With an all-digit body this says that a foreign code and
    the national code that spells its prefix as a digit are accepted
    alike. *)
Theorem validate_substitutes_every_prefix_occurrence
  (j : nat) (p : ascii) (dni : str) (c : ascii) :
  getitem pin.foreign j = Ok [p] ->
  List.length dni = 7%nat ->
  all_digits (replace_chr p (str_ (Z.of_nat j)) dni) = true ->
  DNI.validate ([p] ++ dni ++ [c])
  = DNI.validate (replace_chr p (str_ (Z.of_nat j)) (p :: dni) ++ [c]).
Proof.
  intros Hp Hl Hd.
  assert (Hj : (j < 3)%nat).
  { change 3%nat with (List.length pin.foreign). apply nth_error_Some.
    unfold getitem in Hp. destruct (nth_error pin.foreign j); discriminate. }
  destruct (foreign_choice j Hj) as (p' & Hg & Hi & Hin & _ & Hnd).
  rewrite Hp in Hg. injection Hg as <-.
  assert (Hs : str_ (Z.of_nat j) = [digit_chr (Z.of_nat j)])
    by (apply str_digit; lia).
  assert (Hrl : forall s, List.length (replace_chr p (str_ (Z.of_nat j)) s)
                          = List.length s).
  { induction s as [|a s IH]; [reflexivity|]. cbn [replace_chr].
    destruct (chr_eqb a p); rewrite ?Hs; cbn [app List.length];
      rewrite <- ?Hs, IH; reflexivity. }
  set (body := replace_chr p (str_ (Z.of_nat j)) (p :: dni)).
  assert (Hb : body = digit_chr (Z.of_nat j)
                      :: replace_chr p (str_ (Z.of_nat j)) dni).
  { unfold body. cbn [replace_chr]. unfold chr_eqb at 1.
    rewrite Ascii.eqb_refl, Hs. reflexivity. }
  assert (Hbd : all_digits body = true).
  { rewrite Hb. cbn [all_digits forallb].
    rewrite digit_chr_isdigit by lia. exact Hd. }
  assert (Hbl : List.length body = 8%nat).
  { rewrite Hb. cbn [List.length]. rewrite Hrl, Hl. reflexivity. }
  rewrite (validate_digits_body body c Hbl Hbd).
  unfold DNI.validate.
  change ([p] ++ dni ++ [c]) with ((p :: dni) ++ [c]).
  assert (Hl8 : List.length (p :: dni) = 8%nat) by (simpl; lia).
  rewrite length_app, Hl8. cbn [List.length Nat.add Nat.eqb negb].
  unfold getitem at 1. rewrite (nth_error_app_left (p :: dni) [c] 8 Hl8).
  cbn [nth_error bind]. rewrite (slice_app_left (p :: dni) [c] 8 Hl8).
  unfold getitem at 1. cbn [nth_error bind].
  rewrite Hin, Hi, bind_Ok, bind_Ok. fold body.
  rewrite int_digits by (try exact Hbd; rewrite Hb; discriminate).
  reflexivity.
Qed.

Lemma validate_substitutes_every_prefix_occurrence_witness :
  DNI.validate (py "X123X567K") = DNI.validate (py "01230567K") /\
  DNI.validate (py "X123X567K") = Ok true.
Proof.
  split; [|reflexivity].
  apply (validate_substitutes_every_prefix_occurrence
           0 "X"%char (py "123X567") "K"%char); reflexivity.
Defined.

End DNIProps.

(** ** What the bank account validators accept *)

Module BankProps.
Import Py Ref PyFacts bankaccount BankFacts.

Ltac explode l H :=
  repeat (destruct l as [|? l]; simpl in H; try discriminate H).

Ltac split_digits :=
  repeat match goal with
         | |- andb (isdigit _) _ = true => apply andb_true_iff; split
         end.

Lemma first_check_digit_Ok (bank branch d : str) :
  BBAN._first_check_digit bank branch = Ok d ->
  all_digits (bank ++ branch) = true /\
  d = [digit_chr (eleven_complement
                    (weighted_sum (map digit_val (bank ++ branch))
                       BBAN.first_weights))].
Proof.
  intros H. destruct (all_digits (bank ++ branch)) eqn:E.
  - rewrite (first_check_digit_eq _ _ _ (map_int_digits _ E)) in H.
    rewrite str_digit in H by apply eleven_complement_range.
    split; congruence.
  - rewrite (first_check_digit_nondigits _ _ E) in H. discriminate.
Qed.

Lemma second_check_digit_Ok (account d : str) :
  BBAN._second_check_digit account = Ok d ->
  all_digits account = true /\
  d = [digit_chr (eleven_complement
                    (weighted_sum (map digit_val account)
                       BBAN.second_weights))].
Proof.
  intros H. destruct (all_digits account) eqn:E.
  - rewrite (second_check_digit_eq _ _ (map_int_digits _ E)) in H.
    rewrite str_digit in H by apply eleven_complement_range.
    split; congruence.
  - rewrite (second_check_digit_nondigits _ E) in H. discriminate.
Qed.

(** What a successful [BBAN.validate] has checked. *)
Lemma BBAN_validate_Ok (number v : str) :
  BBAN.validate number = Ok v ->
  v = number /\ List.length number = 20%nat /\
  in_BANKS (slice number 0 4) = true /\
  exists c8 c9,
    nth_error number 8 = Some c8 /\ nth_error number 9 = Some c9 /\
    BBAN._first_check_digit (slice number 0 4) (slice number 4 8) = Ok [c8] /\
    BBAN._second_check_digit (slice_from number 10) = Ok [c9].
Proof.
  intros H.
  assert (Hl : List.length number = 20%nat).
  { unfold BBAN.validate in H.
    destruct (Nat.eqb_spec (List.length number) 20); [assumption|].
    discriminate. }
  destruct (BBAN_validate_length_20 number Hl) as (c8 & c9 & H8 & H9 & E).
  rewrite E in H. clear E.
  destruct (in_BANKS (slice number 0 4)); cbn [negb] in H; [|discriminate].
  destruct (BBAN._first_check_digit _ _) as [d1|] eqn:E1; [|discriminate].
  rewrite bind_Ok in H.
  destruct (str_eqb [c8] d1) eqn:Ec8; cbn [negb] in H; [|discriminate].
  destruct (BBAN._second_check_digit _) as [d2|] eqn:E2; [|discriminate].
  rewrite bind_Ok in H.
  destruct (str_eqb [c9] d2) eqn:Ec9; cbn [negb] in H; [|discriminate].
  apply str_eqb_eq in Ec8, Ec9. subst d1 d2.
  repeat split; try congruence. exists c8, c9. auto.
Qed.

(** Everything a successful [BBAN.validate] implies about its input. *)
Lemma BBAN_validate_Ok_digits (number : str) :
  BBAN.validate number = Ok number ->
  List.length number = 20%nat /\
  in_BANKS (slice number 0 4) = true /\
  all_digits number = true /\
  nth_error number 8
  = Some (digit_chr (eleven_complement
                       (weighted_sum (map digit_val (slice number 0 8))
                          [4; 8; 5; 10; 9; 7; 3; 6]))) /\
  nth_error number 9
  = Some (digit_chr (eleven_complement
                       (weighted_sum (map digit_val (slice_from number 10))
                          [1; 2; 4; 8; 5; 10; 9; 7; 3; 6]))).
Proof.
  intros H.
  destruct (BBAN_validate_Ok _ _ H)
    as (_ & Hl & Hb & c8 & c9 & H8 & H9 & H1 & H2).
  apply first_check_digit_Ok in H1 as [Hd1 E1].
  apply second_check_digit_Ok in H2 as [Hd2 E2].
  injection E1 as E1. injection E2 as E2.
  explode number Hl.
  cbn [nth_error] in H8, H9. injection H8 as <-. injection H9 as <-.
  split; [reflexivity|]. split; [exact Hb|]. split; [|split].
  - assert (I8 : isdigit a7 = true)
      by (rewrite E1; apply digit_chr_isdigit, eleven_complement_range).
    assert (I9 : isdigit a8 = true)
      by (rewrite E2; apply digit_chr_isdigit, eleven_complement_range).
    cbn [slice slice_from skipn firstn Nat.sub app all_digits forallb]
      in Hd1, Hd2 |- *.
    repeat (apply andb_true_iff in Hd1 as [? Hd1]).
    repeat (apply andb_true_iff in Hd2 as [? Hd2]).
    split_digits; (assumption || reflexivity).
  - cbn [nth_error]. f_equal. exact E1.
  - cbn [nth_error]. f_equal. exact E2.
Qed.

(** X6.  [BBAN.validate] returns (its argument) exactly on the strings of
    20 decimal digits whose first four are a key of [BANKS], whose ninth
    is the eleven-complement of the weighted sum of the first eight and
    whose tenth is that of the last ten. *)
Theorem BBAN_validate_accepts_iff (number : str) :
  BBAN.validate number = Ok number <->
  List.length number = 20%nat /\
  in_BANKS (slice number 0 4) = true /\
  all_digits number = true /\
  nth_error number 8
  = Some (digit_chr (eleven_complement
                       (weighted_sum (map digit_val (slice number 0 8))
                          [4; 8; 5; 10; 9; 7; 3; 6]))) /\
  nth_error number 9
  = Some (digit_chr (eleven_complement
                       (weighted_sum (map digit_val (slice_from number 10))
                          [1; 2; 4; 8; 5; 10; 9; 7; 3; 6]))).
Proof.
  split.
  - apply BBAN_validate_Ok_digits.
  - intros (Hl & Hb & Hd & H8 & H9).
    explode number Hl.
    cbn [nth_error] in H8, H9.
    cbn [all_digits forallb] in Hd.
    repeat (apply andb_true_iff in Hd as [? Hd]).
    injection H8 as H8. injection H9 as H9.
    apply (BBAN_validate_account _ a7 a8); try reflexivity; try assumption.
    + match goal with
      | |- BBAN._first_check_digit ?b ?br = _ =>
          assert (Hd1 : all_digits (b ++ br) = true)
            by (cbn [slice skipn firstn Nat.sub app all_digits forallb];
                split_digits; (assumption || reflexivity))
      end.
      rewrite (first_check_digit_eq _ _ _ (map_int_digits _ Hd1)).
      rewrite str_digit by apply eleven_complement_range.
      do 2 f_equal. symmetry. exact H8.
    + match goal with
      | |- BBAN._second_check_digit ?acc = _ =>
          assert (Hd2 : all_digits acc = true)
            by (cbn [slice_from skipn all_digits forallb];
                split_digits; (assumption || reflexivity))
      end.
      rewrite (second_check_digit_eq _ _ (map_int_digits _ Hd2)).
      rewrite str_digit by apply eleven_complement_range.
      do 2 f_equal. symmetry. exact H9.
Qed.

Lemma BBAN_validate_accepts_iff_witness :
  all_digits (py "21000418450200051332") = true /\
  BBAN.validate (py "21000418450200051332") = Ok (py "21000418450200051332").
Proof.
  split.
  - destruct (proj1 (BBAN_validate_accepts_iff (py "21000418450200051332"))
                eq_refl) as (_ & _ & Hd & _).
    exact Hd.
  - apply (proj2 (BBAN_validate_accepts_iff (py "21000418450200051332"))).
    repeat split.
Defined.

Lemma BBAN_init_number (number : str) (self : BBAN.t) :
  BBAN.__init__ number = Ok self ->
  BBAN.check_digit self = Ok (slice number 8 10) /\
  BBAN.number self = Ok number.
Proof.
  unfold BBAN.__init__. intros H.
  destruct (BBAN.validate number) as [v|] eqn:Hv; [|discriminate].
  rewrite bind_Ok in H.
  assert (Hs : self = {| BBAN.bank := slice number 0 4;
                         BBAN.branch := slice number 4 8;
                         BBAN.account := slice_from number 10 |})
    by congruence.
  clear H. subst self.
  destruct (BBAN_validate_Ok _ _ Hv)
    as (-> & Hl & Hb & c8 & c9 & H8 & H9 & H1 & H2).
  assert (Hcd : BBAN.check_digit
                  {| BBAN.bank := slice number 0 4;
                     BBAN.branch := slice number 4 8;
                     BBAN.account := slice_from number 10 |}
                = Ok (slice number 8 10)).
  { unfold BBAN.check_digit. cbn [BBAN.bank BBAN.branch BBAN.account].
    rewrite H1, bind_Ok, H2, bind_Ok.
    explode number Hl. cbn [nth_error] in H8, H9.
    injection H8 as <-. injection H9 as <-. reflexivity. }
  split; [exact Hcd|].
  unfold BBAN.number. rewrite Hcd, bind_Ok.
  cbn [BBAN.bank BBAN.branch BBAN.account].
  replace (slice number 0 4 ++ slice number 4 8 ++ slice number 8 10
           ++ slice_from number 10) with number; [exact Hv|].
  explode number Hl. reflexivity.
Qed.

(** X7.  Parsing and printing are inverse on what the constructor
    accepts: when [BBAN(number)] succeeds, the property [check_digit] of the
    object is [number[8:10]] and its property [number] gives [number]
    back. *)
Theorem BBAN_constructor_roundtrip (number : str) (self : BBAN.t) :
  BBAN.__init__ number = Ok self ->
  BBAN.check_digit self = Ok (slice number 8 10) /\
  BBAN.number self = Ok number.
Proof. apply BBAN_init_number. Qed.

Lemma BBAN_constructor_roundtrip_witness :
  exists self,
    BBAN.__init__ (py "21000418450200051332") = Ok self /\
    BBAN.check_digit self = Ok (py "45") /\
    BBAN.number self = Ok (py "21000418450200051332").
Proof.
  eexists. split; [reflexivity|].
  apply (BBAN_constructor_roundtrip (py "21000418450200051332")).
  reflexivity.
Defined.

(** *** Single-digit errors *)

Lemma weighted_sum_subst (pre post : list Z) (x y : Z) (ws : list Z) :
  weighted_sum (pre ++ x :: post) ws - weighted_sum (pre ++ y :: post) ws
  = (x - y) * nth (List.length pre) ws 0.
Proof.
  revert ws. induction pre as [|p pre IH]; intros [|w ws];
    cbn [app weighted_sum List.length nth]; try ring.
  specialize (IH ws). lia.
Qed.

Lemma weight_mod_11 (d w : Z) :
  1 <= w <= 10 -> -9 <= d <= 9 -> d <> 0 -> (d * w) mod 11 <> 0.
Proof.
  intros Hw Hd Hz. pose proof (DNIProps.small_range d Hd Hz) as H.
  assert (Hc : w = 1 \/ w = 2 \/ w = 3 \/ w = 4 \/ w = 5 \/ w = 6 \/
               w = 7 \/ w = 8 \/ w = 9 \/ w = 10) by lia.
  repeat (destruct Hc as [Hc|Hc]; [subst w; DNIProps.small_cases H|]).
  subst w; DNIProps.small_cases H.
Qed.

(** The complement to eleven sends two different remainders to the same
    digit only when that digit is 1 (remainders 1 and 10). *)
Lemma complement_collision (s s' : Z) :
  s mod 11 <> s' mod 11 ->
  eleven_complement s = eleven_complement s' ->
  eleven_complement s = 1.
Proof.
  unfold eleven_complement.
  pose proof (Z.mod_pos_bound s 11 ltac:(lia)).
  pose proof (Z.mod_pos_bound s' 11 ltac:(lia)).
  destruct (Z.eqb_spec (11 - s mod 11) 10);
    destruct (Z.eqb_spec (11 - s mod 11) 11);
    destruct (Z.eqb_spec (11 - s' mod 11) 10);
    destruct (Z.eqb_spec (11 - s' mod 11) 11); lia.
Qed.

Lemma digit_subst_complement (ws : list Z) (pre post : str) (x y : ascii) :
  all_digits (pre ++ x :: post) = true -> isdigit y = true -> x <> y ->
  1 <= nth (List.length pre) ws 0 <= 10 ->
  eleven_complement (weighted_sum (map digit_val (pre ++ x :: post)) ws)
  = eleven_complement (weighted_sum (map digit_val (pre ++ y :: post)) ws) ->
  eleven_complement (weighted_sum (map digit_val (pre ++ x :: post)) ws) = 1.
Proof.
  intros Hd Hy Hne Hw. apply complement_collision.
  destruct (DNIProps.all_digits_subst pre post x y Hd Hy) as (_ & Hx & _).
  apply DNIProps.mod_neq_of_diff; [lia|].
  rewrite !map_app. cbn [map].
  rewrite weighted_sum_subst, length_map.
  pose proof (digit_val_range x Hx). pose proof (digit_val_range y Hy).
  apply weight_mod_11; [exact Hw | lia |].
  intros E. apply Hne, DNIProps.digit_val_inj; auto. lia.
Qed.

Lemma digit_chr_one (d : Z) : 0 <= d < 10 -> digit_chr d = "1"%char -> d = 1.
Proof.
  intros Hd H. rewrite <- (digit_val_chr d Hd), H. reflexivity.
Qed.

Lemma second_weight_range (i : nat) :
  (i < 10)%nat -> 1 <= nth i BBAN.second_weights 0 <= 10.
Proof.
  intros H. do 10 (destruct i as [|i]; [simpl; lia|]). lia.
Qed.

Lemma first_weight_range (i : nat) :
  (i < 8)%nat -> 1 <= nth i BBAN.first_weights 0 <= 10.
Proof.
  intros H. do 8 (destruct i as [|i]; [simpl; lia|]). lia.
Qed.

(** The digit computed over a digit string with one digit replaced. *)
Lemma complement_digit_subst (ws : list Z) (pre post : str) (x y c : ascii) :
  all_digits (pre ++ x :: post) = true -> isdigit y = true -> x <> y ->
  1 <= nth (List.length pre) ws 0 <= 10 ->
  c = digit_chr (eleven_complement
                   (weighted_sum (map digit_val (pre ++ x :: post)) ws)) ->
  c <> "1"%char ->
  c <> digit_chr (eleven_complement
                    (weighted_sum (map digit_val (pre ++ y :: post)) ws)).
Proof.
  intros Hd Hy Hne Hw Hc H1 E. apply H1. rewrite Hc in *.
  rewrite (digit_subst_complement ws pre post x y Hd Hy Hne Hw);
    [reflexivity|].
  apply (f_equal digit_val) in E.
  rewrite !digit_val_chr in E by apply eleven_complement_range. exact E.
Qed.

(** X8.  In a BBAN that [validate] accepts, replacing one digit of the
    account (positions 10 to 19) by a different digit makes [validate]
    raise the account check-digit error, unless the account check digit of
    the accepted BBAN is 1, the digit that two remainders share. *)
Theorem BBAN_validate_rejects_account_digit_substitution
  (pre post : str) (x y : ascii) :
  (10 <= List.length pre)%nat ->
  isdigit y = true -> x <> y ->
  BBAN.validate (pre ++ x :: post) = Ok (pre ++ x :: post) ->
  nth_error (pre ++ x :: post) 9 <> Some "1"%char ->
  BBAN.validate (pre ++ y :: post) = Raise BBANInvalidAccountCheckDigit.
Proof.
  intros Hpre Hy Hne H Hone.
  destruct (BBAN_validate_Ok _ _ H)
    as (_ & Hl & Hb & c8 & c9 & H8 & H9 & H1 & H2).
  do 10 (destruct pre as [|? pre]; [simpl in Hpre; lia|]).
  cbn [app nth_error] in H8, H9, Hone.
  injection H8 as <-. injection H9 as <-.
  cbn [app slice_from skipn] in H2.
  apply second_check_digit_Ok in H2 as [Hd2 E2]. injection E2 as E2.
  assert (Hal : (List.length pre < 10)%nat).
  { cbn [app List.length] in Hl. rewrite length_app in Hl.
    cbn [List.length] in Hl. lia. }
  destruct (DNIProps.all_digits_subst pre post x y Hd2 Hy)
    as (Hd2' & _ & _ & Hlen).
  pose proof (second_check_digit_eq _ _ (map_int_digits _ Hd2')) as E2'.
  rewrite str_digit in E2' by apply eleven_complement_range.
  assert (Hl' : List.length
                  ((a :: a0 :: a1 :: a2 :: a3 :: a4 :: a5 :: a6 :: a7 :: a8
                      :: pre) ++ y :: post) = 20%nat).
  { cbn [app List.length] in Hl |- *. rewrite length_app in Hl |- *.
    cbn [List.length] in Hl |- *. exact Hl. }
  apply (proj1 (BBAN_validate_account _ a7 _ Hl' Hb H1 eq_refl E2')).
  cbn [app nth_error]. intros [= E]. revert E.
  apply (complement_digit_subst BBAN.second_weights pre post x y);
    try assumption.
  - apply second_weight_range, Hal.
  - congruence.
Qed.

Lemma BBAN_validate_rejects_account_digit_substitution_witness :
  BBAN.validate (py "21000418450200051332") = Ok (py "21000418450200051332") /\
  BBAN.validate (py "21000418450200051337")
  = Raise BBANInvalidAccountCheckDigit.
Proof.
  split; [reflexivity|].
  apply (BBAN_validate_rejects_account_digit_substitution
           (py "2100041845020005133") [] "2"%char "7"%char);
    [simpl; lia | reflexivity | discriminate | reflexivity | discriminate].
Defined.

(** The exception of X8 and X9 is real: these two accepted BBANs differ in
    one account digit and share the account check digit 1. *)
Lemma BBAN_validate_misses_a_substitution :
  BBAN.validate (py "21000418410500000000") = Ok (py "21000418410500000000") /\
  BBAN.validate (py "21000418410600000000") = Ok (py "21000418410600000000").
Proof. split; reflexivity. Qed.

Lemma slices_firstn_8 {A : Type} (l : list A) :
  slice l 0 4 ++ slice l 4 8 = firstn 8 l.
Proof.
  unfold slice.
  destruct l as [|a0 [|a1 [|a2 [|a3 [|a4 [|a5 [|a6 [|a7 l]]]]]]]];
    reflexivity.
Qed.

Lemma firstn_8_subst {A : Type} (pre post : list A) (x : A) :
  (List.length pre < 8)%nat ->
  firstn 8 (pre ++ x :: post)
  = pre ++ x :: firstn (7 - List.length pre) post.
Proof.
  intros H. rewrite firstn_app, firstn_all2 by lia. f_equal.
  replace (8 - List.length pre)%nat with (S (7 - List.length pre)) by lia.
  reflexivity.
Qed.

Lemma nth_error_after_subst {A : Type} (pre post : list A) (x y : A) (n : nat) :
  (List.length pre < n)%nat ->
  nth_error (pre ++ x :: post) n = nth_error (pre ++ y :: post) n.
Proof.
  intros H. rewrite !nth_error_app2 by lia.
  replace (n - List.length pre)%nat with (S (n - List.length pre - 1)) by lia.
  reflexivity.
Qed.

(** X9.  In a BBAN that [validate] accepts, replacing one digit of the bank
    or branch code (positions 0 to 7) by a different digit makes
    [validate] fail, unless the first check digit of the accepted BBAN is
    1: with the unknown-bank error when the new bank code is not
    registered, with the branch check-digit error when it is. *)
Theorem BBAN_validate_rejects_bank_branch_digit_substitution
  (pre post : str) (x y : ascii) :
  (List.length pre < 8)%nat ->
  isdigit y = true -> x <> y ->
  BBAN.validate (pre ++ x :: post) = Ok (pre ++ x :: post) ->
  nth_error (pre ++ x :: post) 8 <> Some "1"%char ->
  BBAN.validate (pre ++ y :: post)
  = if in_BANKS (slice (pre ++ y :: post) 0 4)
    then Raise BBANInvalidBankBranchCheckDigit
    else Raise BBANInvalidBankCode.
Proof.
  intros Hpre Hy Hne H Hone.
  destruct (BBAN_validate_Ok _ _ H)
    as (_ & Hl & _ & c8 & _ & H8 & _ & H1 & _).
  assert (Hl' : List.length (pre ++ y :: post) = 20%nat)
    by (rewrite length_app in Hl |- *; exact Hl).
  destruct (in_BANKS (slice (pre ++ y :: post) 0 4)) eqn:Hb'.
  - apply first_check_digit_Ok in H1 as [Hd1 E1]. injection E1 as E1.
    rewrite slices_firstn_8, firstn_8_subst in Hd1, E1 by exact Hpre.
    destruct (DNIProps.all_digits_subst _ _ x y Hd1 Hy) as (Hd1' & _).
    rewrite <- (firstn_8_subst pre post y Hpre),
      <- (slices_firstn_8 (pre ++ y :: post)) in Hd1'.
    pose proof (first_check_digit_eq _ _ _ (map_int_digits _ Hd1')) as E1'.
    rewrite str_digit in E1' by apply eleven_complement_range.
    apply (BBAN_validate_branch_mismatch _ _ Hl' Hb' E1').
    rewrite <- (nth_error_after_subst pre post x y 8 Hpre), H8.
    intros [= E]. revert E.
    rewrite slices_firstn_8, firstn_8_subst by exact Hpre.
    apply (complement_digit_subst BBAN.first_weights pre _ x y);
      try assumption.
    + apply first_weight_range, Hpre.
    + rewrite H8 in Hone. congruence.
  - destruct (BBAN_validate_length_20 _ Hl') as (? & ? & _ & _ & ->).
    rewrite Hb'. reflexivity.
Qed.

Lemma BBAN_validate_rejects_bank_branch_digit_substitution_witness :
  BBAN.validate (py "21000418450200051332") = Ok (py "21000418450200051332") /\
  BBAN.validate (py "21000718450200051332")
  = Raise BBANInvalidBankBranchCheckDigit /\
  BBAN.validate (py "21900418450200051332") = Raise BBANInvalidBankCode.
Proof.
  split; [reflexivity|]. split.
  - apply (BBAN_validate_rejects_bank_branch_digit_substitution
             (py "21000") (py "18450200051332") "4"%char "7"%char);
      [simpl; lia | reflexivity | discriminate | reflexivity | discriminate].
  - apply (BBAN_validate_rejects_bank_branch_digit_substitution
             (py "21") (py "00418450200051332") "0"%char "9"%char);
      [simpl; lia | reflexivity | discriminate | reflexivity | discriminate].
Defined.

(** X10.  In a BBAN that [validate] accepts, replacing the first check
    digit (position 8) by any other character raises the branch
    check-digit error, and replacing the second (position 9) raises the
    account check-digit error. *)
Theorem BBAN_validate_rejects_check_digit_substitution
  (pre post : str) (x y : ascii) :
  x <> y ->
  BBAN.validate (pre ++ x :: post) = Ok (pre ++ x :: post) ->
  (List.length pre = 8%nat ->
   BBAN.validate (pre ++ y :: post) = Raise BBANInvalidBankBranchCheckDigit) /\
  (List.length pre = 9%nat ->
   BBAN.validate (pre ++ y :: post) = Raise BBANInvalidAccountCheckDigit).
Proof.
  intros Hne H.
  destruct (BBAN_validate_Ok _ _ H)
    as (_ & Hl & Hb & c8 & c9 & H8 & H9 & H1 & H2).
  assert (Hl' : List.length (pre ++ y :: post) = 20%nat)
    by (rewrite length_app in Hl |- *; exact Hl).
  split; intros Hpre.
  - do 8 (destruct pre as [|? pre]; [discriminate Hpre|]).
    destruct pre; [|discriminate Hpre].
    cbn [app nth_error] in H8. injection H8 as <-.
    apply (BBAN_validate_branch_mismatch _ x Hl' Hb H1).
    cbn [app nth_error]. congruence.
  - do 9 (destruct pre as [|? pre]; [discriminate Hpre|]).
    destruct pre; [|discriminate Hpre].
    cbn [app nth_error] in H8, H9. injection H8 as <-. injection H9 as <-.
    apply (proj1 (BBAN_validate_account _ a7 x Hl' Hb H1 eq_refl H2)).
    cbn [app nth_error]. congruence.
Qed.

Lemma BBAN_validate_rejects_check_digit_substitution_witness :
  BBAN.validate (py "21000418950200051332")
  = Raise BBANInvalidBankBranchCheckDigit /\
  BBAN.validate (py "210004184X0200051332")
  = Raise BBANInvalidAccountCheckDigit.
Proof.
  split.
  - apply (BBAN_validate_rejects_check_digit_substitution
             (py "21000418") (py "50200051332") "4"%char "9"%char);
      [discriminate | reflexivity | reflexivity].
  - apply (BBAN_validate_rejects_check_digit_substitution
             (py "210004184") (py "0200051332") "5"%char "X"%char);
      [discriminate | reflexivity | reflexivity].
Defined.

(** *** Generation with a bank and a branch of the wrong width *)

Lemma BBAN_generate_wrong_width (bank branch : str) (r : Z) :
  all_digits (bank ++ branch) = true ->
  (List.length bank + List.length branch)%nat <> 8%nat ->
  0 <= r < 9999999999 ->
  BBAN.generate bank branch None r = Raise BBANInvalidLength.
Proof.
  intros Hd Hw Hr.
  destruct (first_check_digit_digits bank branch Hd) as (d1 & H1 & _).
  destruct (second_check_digit_digits _ (fixed_digits_all 10 r))
    as (d2 & H2 & _).
  unfold BBAN.generate. rewrite zfill_str_fixed by (simpl; lia).
  rewrite H1, bind_Ok, H2, !bind_Ok. cbn [load bind].
  unfold BBAN.__init__, BBAN.validate.
  rewrite !length_app, fixed_digits_length. cbn [List.length].
  destruct (Nat.eqb_spec
              (List.length bank + (List.length branch + (1 + (1 + 10)))) 20);
    [lia | reflexivity].
Qed.

(** X11.  Without an account, [BBAN.generate] and [IBAN.generate] build
    their number from the bank and the branch as given: when these are
    digit strings whose lengths do not add up to 8, the constructor turns
    the number down and [BBANInvalidLength] propagates, whatever the
    random draw. *)
Theorem generate_rejects_wrong_width (bank branch : str) (r : Z) :
  all_digits (bank ++ branch) = true ->
  (List.length bank + List.length branch)%nat <> 8%nat ->
  0 <= r < 9999999999 ->
  BBAN.generate bank branch None r = Raise BBANInvalidLength /\
  IBAN.generate bank branch None r = Raise BBANInvalidLength.
Proof.
  intros Hd Hw Hr.
  pose proof (BBAN_generate_wrong_width bank branch r Hd Hw Hr) as H.
  split; [exact H|]. unfold IBAN.generate. rewrite H. reflexivity.
Qed.

Lemma generate_rejects_wrong_width_witness :
  BBAN.generate (py "1465") (py "00000") None 7 = Raise BBANInvalidLength /\
  IBAN.generate (py "1465") (py "00000") None 7 = Raise BBANInvalidLength.
Proof.
  apply (generate_rejects_wrong_width (py "1465") (py "00000") 7);
    [reflexivity | simpl; lia | lia].
Defined.

Lemma lookup_registered (banks : list (str * bank_info)) (code : str) :
  contains (map fst banks) code = true ->
  exists info, Bank.lookup banks code = Some info.
Proof.
  unfold contains. induction banks as [|[k v] banks IH]; simpl;
    [discriminate|].
  destruct (str_eqb code k) eqn:E; simpl.
  - intros _. apply str_eqb_eq in E. subst k.
    rewrite str_eqb_refl. eexists; reflexivity.
  - intros H. destruct (str_eqb k code); [eexists; reflexivity | auto].
Qed.

Lemma lookup_unregistered (banks : list (str * bank_info)) (code : str) :
  contains (map fst banks) code = false -> Bank.lookup banks code = None.
Proof.
  unfold contains. induction banks as [|[k v] banks IH]; simpl;
    [reflexivity|].
  rewrite orb_false_iff. intros [E H].
  destruct (str_eqb k code) eqn:E'; [|auto].
  apply str_eqb_eq in E'. subst k. rewrite str_eqb_refl in E. discriminate.
Qed.

(** X12.  [Bank(code)] raises [KeyError] when [code] is not a key of
    [BANKS].  When it is, the object carries the country ES, the code, the
    name and BIC of the table and the default branch, which has three
    characters: handing [bank.code] and [bank.branch] to [BBAN.generate]
    or [IBAN.generate], as the module docstring shows, raises
    [BBANInvalidLength] for every random draw. *)
Theorem Bank_default_branch_breaks_generate (code : str) (r : Z) :
  0 <= r < 9999999999 ->
  (in_BANKS code = false ->
   Bank.__init__ code Bank.default_branch = None) /\
  (in_BANKS code = true ->
   exists bank info,
     Bank.__init__ code Bank.default_branch = Some bank /\
     Bank.lookup BANKS code = Some info /\
     Bank.country bank = py "ES" /\ Bank.code bank = code /\
     Bank.name bank = name info /\ Bank.bic bank = bic info /\
     Bank.branch bank = py "000" /\
     BBAN.generate (Bank.code bank) (Bank.branch bank) None r
     = Raise BBANInvalidLength /\
     IBAN.generate (Bank.code bank) (Bank.branch bank) None r
     = Raise BBANInvalidLength).
Proof.
  intros Hr. split; intros Hb; unfold Bank.__init__.
  - rewrite (lookup_unregistered _ _ Hb). reflexivity.
  - destruct (lookup_registered _ _ Hb) as (info & Hi). rewrite Hi.
    exists {| Bank.country := py "ES"; Bank.code := code;
              Bank.branch := Bank.default_branch;
              Bank.name := name info; Bank.bic := bic info |}, info.
    cbn [Bank.country Bank.code Bank.name Bank.bic Bank.branch].
    destruct (in_BANKS_digits code Hb) as [Hd Hl].
    assert (G : BBAN.generate code Bank.default_branch None r
                = Raise BBANInvalidLength).
    { apply BBAN_generate_wrong_width; [| rewrite Hl; simpl; lia | exact Hr].
      rewrite all_digits_app, Hd. reflexivity. }
    repeat split; try exact G.
    unfold IBAN.generate. rewrite G. reflexivity.
Qed.

Lemma Bank_default_branch_breaks_generate_witness :
  exists bank,
    Bank.__init__ (py "1465") Bank.default_branch = Some bank /\
    Bank.name bank = py "ING-DIRECT" /\
    IBAN.generate (Bank.code bank) (Bank.branch bank) None 1
    = Raise BBANInvalidLength.
Proof.
  destruct (Bank_default_branch_breaks_generate (py "1465") 1 ltac:(lia))
    as [_ H].
  destruct (H eq_refl)
    as (bank & info & Hi & Hl & _ & _ & Hn & _ & _ & _ & Hg).
  exists bank. split; [exact Hi|]. split; [|exact Hg].
  rewrite Hn. vm_compute in Hl. injection Hl as <-. reflexivity.
Defined.

(** *** What [IBAN.validate] accepts *)

Lemma index_lowercase (c : ascii) :
  islower c = true -> index ascii_uppercase [c] = Raise ValueError.
Proof. by_chars c. Qed.

Lemma islower_isalpha (c : ascii) : islower c = true -> isalpha c = true.
Proof. unfold isalpha. intros ->. apply orb_true_r. Qed.

(** A lower-case letter anywhere stops the substitution loop. *)
Lemma substitute_letters_lowercase (s acc : str) :
  existsb islower s = true ->
  IBAN.substitute_letters ascii_uppercase s acc = Raise ValueError.
Proof.
  revert acc. induction s as [|c s IH]; intros acc; [discriminate|].
  cbn [existsb IBAN.substitute_letters].
  destruct (islower c) eqn:Hc; cbn [orb].
  - intros _. rewrite (islower_isalpha c Hc), (index_lowercase c Hc).
    reflexivity.
  - intros Hs. destruct (isalpha c).
    + destruct (index ascii_uppercase [c]) as [i|e] eqn:E.
      * rewrite !bind_Ok. apply IH, Hs.
      * rewrite (index_raises _ _ _ E). reflexivity.
    + rewrite bind_Ok. apply IH, Hs.
Qed.

Lemma upper_without_lowercase (s : str) :
  existsb islower s = false -> upper s = s.
Proof.
  induction s as [|c s IH]; [reflexivity|]. cbn [existsb upper map].
  rewrite orb_false_iff. intros [Hc Hs]. unfold upper in IH.
  rewrite (IH Hs). unfold upper_chr. rewrite Hc. reflexivity.
Qed.

Lemma calc_check_digit_Ok_uppercase (number d : str) :
  IBAN._calc_check_digit number = Ok d ->
  existsb islower (slice number 0 2) = false.
Proof.
  unfold IBAN._calc_check_digit. intros H.
  destruct (existsb islower (slice number 0 2)) eqn:E; [|reflexivity].
  rewrite substitute_letters_lowercase in H; [discriminate|].
  rewrite !existsb_app, E. cbn [orb]. apply orb_true_r.
Qed.

(** Everything a successful [IBAN.validate] implies about its input. *)
Lemma IBAN_validate_Ok_full (number v : str) :
  IBAN.validate number = Ok v ->
  v = number /\
  List.length number = 24%nat /\
  slice number 0 2 = py "ES" /\
  in_BANKS (slice number 4 8) = true /\
  slice number 2 4
  = fixed_digits 2
      (98 - digits_val (slice number 4 8 ++ py "142800") mod 97).
Proof.
  intros H. destruct (IBAN_validate_Ok _ _ H) as (-> & Hl & Hb).
  unfold IBAN.validate in H. rewrite Hl, Hb in H. cbn [Nat.eqb negb] in H.
  destruct (str_eqb (upper (slice number 0 2)) (py "ES")) eqn:Ec;
    cbn [negb] in H; [|discriminate].
  destruct (IBAN._calc_check_digit number) as [d|] eqn:Ed; [|discriminate].
  rewrite bind_Ok in H.
  destruct (str_eqb (slice number 2 4) d) eqn:Ecd; cbn [negb] in H;
    [|discriminate].
  apply str_eqb_eq in Ec, Ecd.
  rewrite (upper_without_lowercase _ (calc_check_digit_Ok_uppercase _ _ Ed))
    in Ec.
  rewrite calc_check_digit_ES in Ed
    by (try exact Ec; apply in_BANKS_digits, Hb).
  repeat split; congruence.
Qed.

(** X13.  [IBAN.validate] returns (its argument) exactly on the strings of
    24 characters that begin with ES in upper case, carry a key of [BANKS]
    at positions 4 to 7 and, at positions 2 and 3, the two digits of 98
    minus the remainder modulo 97 of the bank code followed by 142800.
    The characters at positions 8 to 23 are not constrained. *)
Theorem IBAN_validate_accepts_iff (number : str) :
  IBAN.validate number = Ok number <->
  List.length number = 24%nat /\
  slice number 0 2 = py "ES" /\
  in_BANKS (slice number 4 8) = true /\
  slice number 2 4
  = fixed_digits 2
      (98 - digits_val (slice number 4 8 ++ py "142800") mod 97).
Proof.
  split.
  - intros H. apply (IBAN_validate_Ok_full number number H).
  - intros (Hl & Hc & Hb & Hcd).
    unfold IBAN.validate. rewrite Hl, Hc, Hb. cbn [Nat.eqb negb].
    change (str_eqb (upper (py "ES")) (py "ES")) with true. cbn [negb].
    rewrite calc_check_digit_ES
      by (try exact Hc; apply in_BANKS_digits, Hb).
    rewrite bind_Ok, Hcd, str_eqb_refl. reflexivity.
Qed.

Lemma IBAN_validate_accepts_iff_witness :
  IBAN.validate (py "ES30210099999999999999zz")
  = Ok (py "ES30210099999999999999zz").
Proof.
  apply (proj2 (IBAN_validate_accepts_iff (py "ES30210099999999999999zz"))).
  repeat split.
Defined.

Lemma IBAN_init_number (number : str) (self : IBAN.t) :
  IBAN.__init__ number = Ok self ->
  IBAN.country self = py "ES" /\
  IBAN.check_digit self = Ok (slice number 2 4) /\
  IBAN.number self = Ok number.
Proof.
  unfold IBAN.__init__. intros H.
  destruct (IBAN.validate number) as [v|] eqn:Hv; [|discriminate].
  rewrite bind_Ok in H.
  destruct (BBAN.__init__ (slice_from number 4)) as [b|] eqn:Hb;
    [|discriminate].
  rewrite bind_Ok in H.
  assert (Hs : self = {| IBAN.country := slice number 0 2; IBAN.bban := b |})
    by congruence.
  clear H. subst self.
  destruct (IBAN_validate_Ok_full _ _ Hv) as (-> & Hl & Hc & Hbank & Hcd).
  destruct (BBAN_init_number _ _ Hb) as (_ & Hn).
  cbn [IBAN.country]. rewrite Hc.
  assert (Hd : IBAN.check_digit
                 {| IBAN.country := py "ES"; IBAN.bban := b |}
               = Ok (slice number 2 4)).
  { unfold IBAN.check_digit. cbn [IBAN.country IBAN.bban].
    rewrite Hn, bind_Ok, calc_check_digit_ES.
    - rewrite Hcd. explode number Hl. reflexivity.
    - reflexivity.
    - replace (slice (py "ES" ++ py "00" ++ slice_from number 4) 4 8)
        with (slice number 4 8) by (explode number Hl; reflexivity).
      apply in_BANKS_digits, Hbank. }
  split; [reflexivity|]. split; [exact Hd|].
  unfold IBAN.number. rewrite Hd, bind_Ok.
  cbn [IBAN.country IBAN.bban]. rewrite Hn, bind_Ok.
  replace (py "ES" ++ slice number 2 4 ++ slice_from number 4) with number;
    [exact Hv|].
  rewrite <- Hc. explode number Hl. reflexivity.
Qed.

(** X14.  Parsing and printing are inverse on what the constructor
    accepts: when [IBAN(number)] succeeds, the country of the object is ES
    in upper case, its property [check_digit] is [number[2:4]] and its
    property [number] gives [number] back. *)
Theorem IBAN_constructor_roundtrip (number : str) (self : IBAN.t) :
  IBAN.__init__ number = Ok self ->
  IBAN.country self = py "ES" /\
  IBAN.check_digit self = Ok (slice number 2 4) /\
  IBAN.number self = Ok number.
Proof. apply IBAN_init_number. Qed.

Lemma IBAN_constructor_roundtrip_witness :
  exists self,
    IBAN.__init__ (py "ES3021000418450200051332") = Ok self /\
    IBAN.country self = py "ES" /\
    IBAN.check_digit self = Ok (py "30") /\
    IBAN.number self = Ok (py "ES3021000418450200051332").
Proof.
  eexists. split; [reflexivity|].
  apply (IBAN_constructor_roundtrip (py "ES3021000418450200051332")).
  reflexivity.
Defined.

(** X17.  Whatever its input, when [_calc_check_digit] returns it returns
    two decimal digits that spell a number between 2 and 98: the pairs 00,
    01 and 99 are never computed. *)
Theorem calc_check_digit_range (number d : str) :
  IBAN._calc_check_digit number = Ok d ->
  exists v, 2 <= v <= 98 /\ d = fixed_digits 2 v /\
            List.length d = 2%nat /\ all_digits d = true.
Proof.
  unfold IBAN._calc_check_digit. intros H.
  destruct (IBAN.substitute_letters _ _ _) as [s|]; [|discriminate].
  rewrite bind_Ok in H. destruct (int s) as [n|]; [|discriminate].
  rewrite bind_Ok in H.
  assert (Hd : d = zfill 2 (str_ (98 - n mod 97))) by congruence.
  clear H. subst d.
  pose proof (Z.mod_pos_bound n 97 ltac:(lia)) as Hn.
  exists (98 - n mod 97). split; [lia|].
  rewrite zfill_str_fixed;
    [| lia | change (10 ^ Z.of_nat 2) with 100; lia].
  split; [reflexivity|].
  split; [apply fixed_digits_length | apply fixed_digits_all].
Qed.

Lemma calc_check_digit_range_witness :
  exists v, 2 <= v <= 98 /\ py "30" = fixed_digits 2 v /\
            List.length (py "30") = 2%nat /\ all_digits (py "30") = true.
Proof.
  apply (calc_check_digit_range (py "ES0021000418450200051332")).
  reflexivity.
Defined.

(** *** Generation without an account *)

(** X15.  For a registered bank, a branch of four digits and every value
    of [random.randrange(9999999999)], [BBAN.generate] without an account
    returns an object with that bank, that branch and the draw padded to
    ten digits as account; its [number] has 20 characters, passes
    [BBAN.validate], and parses back to the same object. *)
Theorem BBAN_generate_roundtrip (bank branch : str) (r : Z) :
  in_BANKS bank = true ->
  List.length branch = 4%nat -> all_digits branch = true ->
  0 <= r < 9999999999 ->
  exists self code,
    BBAN.generate bank branch None r = Ok self /\
    BBAN.bank self = bank /\ BBAN.branch self = branch /\
    BBAN.account self = fixed_digits 10 r /\
    BBAN.number self = Ok code /\
    List.length code = 20%nat /\
    BBAN.validate code = Ok code /\
    BBAN.__init__ code = Ok self.
Proof.
  intros Hb Hl Hd Hr.
  destruct (BBAN_generate_random bank branch r Hb Hl Hd Hr)
    as (d1 & d2 & Hg & Hn & Hcl & Hv & Hi).
  cbv zeta in *. eexists; eexists. rewrite Hg.
  split; [reflexivity|].
  cbn [BBAN.bank BBAN.branch BBAN.account].
  repeat (split; [reflexivity|]).
  split; [exact Hn|]. split; [exact Hcl|]. split; [exact Hv | exact Hi].
Qed.

Lemma BBAN_generate_roundtrip_witness :
  exists self code,
    BBAN.generate (py "1465") (py "0000") None 9999999998 = Ok self /\
    BBAN.bank self = py "1465" /\ BBAN.branch self = py "0000" /\
    BBAN.account self = fixed_digits 10 9999999998 /\
    BBAN.number self = Ok code /\
    List.length code = 20%nat /\
    BBAN.validate code = Ok code /\
    BBAN.__init__ code = Ok self.
Proof.
  apply (BBAN_generate_roundtrip (py "1465") (py "0000") 9999999998);
    [reflexivity | reflexivity | reflexivity | lia].
Defined.

(** X16.  Under the same conditions [IBAN.generate] without an account
    returns an object of country ES; its [number] has 24 characters,
    passes [IBAN.validate], and parses back to the same object. *)
Theorem IBAN_generate_roundtrip (bank branch : str) (r : Z) :
  in_BANKS bank = true ->
  List.length branch = 4%nat -> all_digits branch = true ->
  0 <= r < 9999999999 ->
  exists self code,
    IBAN.generate bank branch None r = Ok self /\
    IBAN.country self = py "ES" /\
    BBAN.generate bank branch None r = Ok (IBAN.bban self) /\
    IBAN.number self = Ok code /\
    List.length code = 24%nat /\
    IBAN.validate code = Ok code /\
    IBAN.__init__ code = Ok self.
Proof.
  intros Hb Hl Hd Hr.
  destruct (IBAN_generate_random bank branch r Hb Hl Hd Hr)
    as (b & cd & bban & Hbg & _ & Hg & Hn & Hcl & Hv & Hi).
  cbv zeta in *. eexists; eexists. rewrite Hg.
  split; [reflexivity|]. cbn [IBAN.country IBAN.bban].
  split; [reflexivity|]. split; [exact Hbg|].
  split; [exact Hn|]. split; [exact Hcl|]. split; [exact Hv | exact Hi].
Qed.

Lemma IBAN_generate_roundtrip_witness :
  exists self code,
    IBAN.generate (py "1465") (py "0000") None 0 = Ok self /\
    IBAN.country self = py "ES" /\
    BBAN.generate (py "1465") (py "0000") None 0 = Ok (IBAN.bban self) /\
    IBAN.number self = Ok code /\
    List.length code = 24%nat /\
    IBAN.validate code = Ok code /\
    IBAN.__init__ code = Ok self.
Proof.
  apply (IBAN_generate_roundtrip (py "1465") (py "0000") 0);
    [reflexivity | reflexivity | reflexivity | lia].
Defined.

(** *** Shape of the BBAN check digits *)

(** X18.  Each check-digit function returns exactly one decimal digit when
    every character of its input is a decimal digit, whatever the length of
    the input, and raises [ValueError] otherwise. *)
Theorem check_digit_is_one_digit (bank branch account : str) :
  (all_digits (bank ++ branch) = true ->
   exists d, BBAN._first_check_digit bank branch = Ok [d] /\
             isdigit d = true) /\
  (all_digits (bank ++ branch) = false ->
   BBAN._first_check_digit bank branch = Raise ValueError) /\
  (all_digits account = true ->
   exists d, BBAN._second_check_digit account = Ok [d] /\
             isdigit d = true) /\
  (all_digits account = false ->
   BBAN._second_check_digit account = Raise ValueError).
Proof.
  split; [apply first_check_digit_digits|].
  split; [apply first_check_digit_nondigits|].
  split; [apply second_check_digit_digits | apply second_check_digit_nondigits].
Qed.

Lemma check_digit_is_one_digit_witness :
  (exists d, BBAN._first_check_digit (py "21") (py "000418777") = Ok [d] /\
             isdigit d = true) /\
  BBAN._first_check_digit (py "2100") (py "04l8") = Raise ValueError /\
  (exists d, BBAN._second_check_digit [] = Ok [d] /\ isdigit d = true) /\
  BBAN._second_check_digit (py "02000 1332") = Raise ValueError.
Proof.
  split; [|split; [|split]].
  - apply (check_digit_is_one_digit (py "21") (py "000418777") []).
    reflexivity.
  - apply (check_digit_is_one_digit (py "2100") (py "04l8") []).
    reflexivity.
  - apply (check_digit_is_one_digit [] [] []). reflexivity.
  - apply (check_digit_is_one_digit [] [] (py "02000 1332")). reflexivity.
Defined.

Lemma weighted_sum_app_full (ds extra ws : list Z) :
  List.length ds = List.length ws ->
  weighted_sum (ds ++ extra) ws = weighted_sum ds ws.
Proof.
  revert ws. induction ds as [|d ds IH]; intros [|w ws] H;
    try discriminate H.
  - destruct extra; reflexivity.
  - cbn [app weighted_sum]. rewrite IH; [reflexivity|].
    simpl in H. lia.
Qed.

(** X19.  [zip] stops at the last weight: digits after the eighth of
    bank and branch together, or after the tenth of the account, do not
    change the check digit. *)
Theorem check_digit_ignores_extra_digits
  (bank branch account extra : str) :
  all_digits extra = true ->
  (List.length (bank ++ branch) = 8%nat ->
   BBAN._first_check_digit bank (branch ++ extra)
   = BBAN._first_check_digit bank branch) /\
  (List.length account = 10%nat ->
   BBAN._second_check_digit (account ++ extra)
   = BBAN._second_check_digit account).
Proof.
  intros He. split; intros Hl.
  - destruct (all_digits (bank ++ branch)) eqn:Hd.
    + assert (Hd' : all_digits (bank ++ branch ++ extra) = true)
        by (rewrite app_assoc, all_digits_app, Hd, He; reflexivity).
      rewrite (first_check_digit_eq _ _ _ (map_int_digits _ Hd')),
        (first_check_digit_eq _ _ _ (map_int_digits _ Hd)).
      rewrite app_assoc, map_app, weighted_sum_app_full; [reflexivity|].
      rewrite length_map, Hl. reflexivity.
    + rewrite !first_check_digit_nondigits; [reflexivity | exact Hd |].
      rewrite app_assoc, all_digits_app, Hd. reflexivity.
  - destruct (all_digits account) eqn:Hd.
    + assert (Hd' : all_digits (account ++ extra) = true)
        by (rewrite all_digits_app, Hd, He; reflexivity).
      rewrite (second_check_digit_eq _ _ (map_int_digits _ Hd')),
        (second_check_digit_eq _ _ (map_int_digits _ Hd)).
      rewrite map_app, weighted_sum_app_full; [reflexivity|].
      rewrite length_map, Hl. reflexivity.
    + rewrite !second_check_digit_nondigits; [reflexivity | exact Hd |].
      rewrite all_digits_app, Hd. reflexivity.
Qed.

Lemma check_digit_ignores_extra_digits_witness :
  BBAN._first_check_digit (py "2100") (py "0418" ++ py "999")
  = BBAN._first_check_digit (py "2100") (py "0418") /\
  BBAN._second_check_digit (py "0200051332" ++ py "999")
  = BBAN._second_check_digit (py "0200051332").
Proof.
  destruct (check_digit_ignores_extra_digits
              (py "2100") (py "0418") (py "0200051332") (py "999") eq_refl)
    as [H1 H2].
  split; [apply H1 | apply H2]; reflexivity.
Defined.

(** *** Printed forms *)

Lemma isdigit_not_blank (c : ascii) :
  isdigit c = true -> negb (chr_eqb c " ") = true.
Proof. by_chars c. Qed.

Lemma filter_digits (s : str) :
  all_digits s = true -> filter (fun c => negb (chr_eqb c " ")) s = s.
Proof.
  induction s as [|c s IH]; [reflexivity|]. cbn [all_digits forallb filter].
  rewrite andb_true_iff. intros [Hc Hs].
  rewrite (isdigit_not_blank c Hc). f_equal. apply IH, Hs.
Qed.

Lemma all_digits_firstn (n : nat) (s : str) :
  all_digits s = true -> all_digits (firstn n s) = true.
Proof.
  intros H. rewrite <- (firstn_skipn n s), all_digits_app in H.
  apply andb_true_iff in H. tauto.
Qed.

Lemma all_digits_skipn (n : nat) (s : str) :
  all_digits s = true -> all_digits (skipn n s) = true.
Proof.
  intros H. rewrite <- (firstn_skipn n s), all_digits_app in H.
  apply andb_true_iff in H. tauto.
Qed.

Lemma all_digits_slice (i j : nat) (s : str) :
  all_digits s = true -> all_digits (slice s i j) = true.
Proof. intros H. apply all_digits_firstn, all_digits_skipn, H. Qed.

Lemma BBAN_repr_init (number : str) (self : BBAN.t) :
  BBAN.__init__ number = Ok self ->
  exists r,
    BBAN.__repr__ self = Ok r /\
    r = slice number 0 4 ++ py " " ++ slice number 4 8 ++ py " "
        ++ slice number 8 10 ++ py " " ++ slice_from number 10 /\
    List.length r = 23%nat /\
    filter (fun c => negb (chr_eqb c " ")) r = number.
Proof.
  intros H. destruct (BBAN_init_number _ _ H) as (Hcd & Hn).
  unfold BBAN.__init__ in H.
  destruct (BBAN.validate number) as [v|] eqn:Hv; [|discriminate].
  rewrite bind_Ok in H.
  assert (Hs : self = {| BBAN.bank := slice number 0 4;
                         BBAN.branch := slice number 4 8;
                         BBAN.account := slice_from number 10 |})
    by congruence.
  clear H. subst self.
  destruct (BBAN_validate_Ok _ _ Hv) as (-> & _).
  destruct (BBAN_validate_Ok_digits _ Hv) as (Hl & _ & Hd & _).
  eexists. split; [|split; [reflexivity|split]].
  - unfold BBAN.__repr__. rewrite Hcd, bind_Ok.
    cbn [BBAN.bank BBAN.branch BBAN.account join]. reflexivity.
  - clear Hv Hcd Hn Hd. explode number Hl. reflexivity.
  - rewrite !filter_app.
    rewrite (filter_digits (slice number 0 4)),
      (filter_digits (slice number 4 8)),
      (filter_digits (slice number 8 10)),
      (filter_digits (slice_from number 10))
      by (try apply all_digits_slice; try apply all_digits_skipn; exact Hd).
    clear Hv Hcd Hn Hd. explode number Hl. reflexivity.
Qed.

(** X20.  The printed form of a [BBAN] built by the constructor is the
    bank code, the branch code, the two check digits and the account
    separated by single spaces: 23 characters which, the spaces removed,
    are the number the object was built from. *)
Theorem BBAN_repr_of_constructed (number : str) (self : BBAN.t) :
  BBAN.__init__ number = Ok self ->
  exists r,
    BBAN.__repr__ self = Ok r /\
    r = slice number 0 4 ++ py " " ++ slice number 4 8 ++ py " "
        ++ slice number 8 10 ++ py " " ++ slice_from number 10 /\
    List.length r = 23%nat /\
    filter (fun c => negb (chr_eqb c " ")) r = number.
Proof. apply BBAN_repr_init. Qed.

Lemma BBAN_repr_of_constructed_witness :
  exists self,
    BBAN.__init__ (py "21000418450200051332") = Ok self /\
    BBAN.__repr__ self = Ok (py "2100 0418 45 0200051332").
Proof.
  eexists. split; [reflexivity|].
  destruct (BBAN_repr_of_constructed (py "21000418450200051332") _ eq_refl)
    as (r & Hr & -> & _).
  exact Hr.
Defined.

(** X21.  The printed form of an [IBAN] built by the constructor is the
    country code with the IBAN check digits, a space, and the printed form
    of its BBAN: 28 characters which, the spaces removed, are the number
    the object was built from. *)
Theorem IBAN_repr_of_constructed (number : str) (self : IBAN.t) :
  IBAN.__init__ number = Ok self ->
  exists r,
    IBAN.__repr__ self = Ok r /\
    r = slice number 0 4 ++ py " " ++ slice number 4 8 ++ py " "
        ++ slice number 8 12 ++ py " " ++ slice number 12 14 ++ py " "
        ++ slice_from number 14 /\
    List.length r = 28%nat /\
    filter (fun c => negb (chr_eqb c " ")) r = number.
Proof.
  intros H. destruct (IBAN_init_number _ _ H) as (Hc & Hcd & Hn).
  unfold IBAN.__init__ in H.
  destruct (IBAN.validate number) as [v|] eqn:Hv; [|discriminate].
  rewrite bind_Ok in H.
  destruct (BBAN.__init__ (slice_from number 4)) as [b|] eqn:Hb;
    [|discriminate].
  rewrite bind_Ok in H.
  assert (Hs : self = {| IBAN.country := slice number 0 2; IBAN.bban := b |})
    by congruence.
  clear H. subst self.
  destruct (IBAN_validate_Ok_full _ _ Hv) as (-> & Hl & Hes & _ & Hd).
  destruct (BBAN_repr_init _ _ Hb) as (inner & Hi & Einner & Hil & Hif).
  exists (slice number 0 4 ++ py " " ++ inner).
  assert (E04 : slice number 0 4 = slice number 0 2 ++ slice number 2 4)
    by (clear - Hl; explode number Hl; reflexivity).
  split; [|split; [|split]].
  - unfold IBAN.__repr__. rewrite Hcd, bind_Ok.
    cbn [IBAN.country IBAN.bban]. rewrite Hi, bind_Ok.
    cbn [join]. rewrite E04. reflexivity.
  - rewrite Einner. clear - Hl. explode number Hl. reflexivity.
  - rewrite !length_app, Hil. clear - Hl. explode number Hl. reflexivity.
  - rewrite !filter_app, Hif, E04, Hes, Hd, filter_app.
    rewrite (filter_digits (fixed_digits 2 _)) by apply fixed_digits_all.
    change (filter (fun c => negb (chr_eqb c " ")) (py "ES")) with (py "ES").
    rewrite <- Hes, <- Hd. clear - Hl. explode number Hl. reflexivity.
Qed.

Lemma IBAN_repr_of_constructed_witness :
  exists self,
    IBAN.__init__ (py "ES3021000418450200051332") = Ok self /\
    IBAN.__repr__ self = Ok (py "ES30 2100 0418 45 0200051332").
Proof.
  eexists. split; [reflexivity|].
  destruct (IBAN_repr_of_constructed (py "ES3021000418450200051332") _ eq_refl)
    as (r & Hr & -> & _).
  exact Hr.
Defined.

End BankProps.
